(** * Smart e-National ID front end: eligibility, formatting, queue-status
      reconciliation, check-in and cancel handlers, API client interceptor.

    A shallow embedding of the TypeScript sources

      - frontend/src/pages/Appointments.tsx and Dashboard.tsx
        (fetchAppointments, formatDate, formatDateTime, isToday,
        isPastAppointment, canCheckIn, handleCheckIn,
        handleCancelAppointment; the two pages carry the same code),
      - the MyQueue component (fetchQueueData, handleCheckIn,
        formatDateTime, isToday, isPastAppointment),
      - the error normaliser of BookAppointment.tsx,
      - services/api.ts (the axios response interceptor),

    together with the fragment of ECMAScript the code runs on: numbers
    read from strings, [String.prototype.split], the [||] operator and
    the Date abstract operations of ECMA-262 (sec. 21.4.1).  The
    viewer's time zone is a fixed offset from UTC. *)

From stdpp Require Import gmap strings list.
From Stdlib Require Import ZArith Lia Ascii String.

Open Scope string_scope.
Open Scope Z_scope.

(** Division and modulo goals over [Z]: turn them into their Euclidean
    equations and let [lia] finish. *)
Ltac zdiv := Z.to_euclidean_division_equations; lia.

(* ================================================================== *)
(** ** The ECMAScript fragment                                         *)
(* ================================================================== *)

Module Js.

(** *** Numbers

    Number values as far as the code can tell them apart: NaN, the two
    infinities, the integers, and the finite numbers that are not
    integers, each kept by its floor ([Frac f] lies strictly between
    [f] and [f + 1]).  Values are exact: the rounding of binary64
    (past 2^53, or past 17 significant digits) is not modelled. *)
Inductive JsNum := NaN | PInf | NInf | Fin (z : Z) | Frac (floor : Z).

(** A destructured array element: [None] is [undefined]. *)
Definition JsVal := option JsNum.

(** ToBoolean on a number or [undefined]. *)
Definition truthy (v : JsVal) : bool :=
  match v with
  | None | Some NaN | Some (Fin 0) => false
  | Some _ => true
  end.

(** [v || d] for a numeric literal [d]. *)
Definition or_default (v : JsVal) (d : Z) : JsNum :=
  match v with
  | Some n => if truthy v then n else Fin d
  | None => Fin d
  end.

(** ToNumber on a number or [undefined]. *)
Definition ToNumber (v : JsVal) : JsNum :=
  match v with Some n => n | None => NaN end.

(** [n - 1]. *)
Definition minus1 (n : JsNum) : JsNum :=
  match n with
  | Fin z => Fin (z - 1)
  | Frac f => Frac (f - 1)
  | other => other
  end.

(** [- n]. *)
Definition negate (n : JsNum) : JsNum :=
  match n with
  | NaN => NaN
  | PInf => NInf
  | NInf => PInf
  | Fin z => Fin (- z)
  | Frac f => Frac (- f - 1)
  end.

(** ToIntegerOrInfinity on a finite number (truncation towards zero);
    [None] when the number is not finite. *)
Definition integer_part (n : JsNum) : option Z :=
  match n with
  | Fin z => Some z
  | Frac f => Some (if 0 <=? f then f else f + 1)
  | _ => None
  end.

(** *** Strings (of ASCII characters) *)

(** [s.split(sep)] for a one-character separator: never empty. *)
Fixpoint split (sep : ascii) (s : string) : list string :=
  match s with
  | EmptyString => [EmptyString]
  | String c rest =>
      if Ascii.eqb c sep then EmptyString :: split sep rest
      else match split sep rest with
           | [] => [String c EmptyString]
           | w :: ws => String c w :: ws
           end
  end.

Definition is_ws (c : ascii) : bool :=
  let n := nat_of_ascii c in
  ((n =? 32) || (n =? 9) || (n =? 10) || (n =? 11) || (n =? 12) || (n =? 13))%nat.

Fixpoint trim_left (s : string) : string :=
  match s with
  | String c rest => if is_ws c then trim_left rest else s
  | EmptyString => EmptyString
  end.

Fixpoint trim_right (s : string) : string :=
  match s with
  | EmptyString => EmptyString
  | String c rest =>
      match trim_right rest with
      | EmptyString => if is_ws c then EmptyString else String c EmptyString
      | r => String c r
      end
  end.

(** *** [Number(s)]: the StringNumericLiteral grammar (ECMA-262 7.1.4.1) *)

(** The value of a digit of the given radix. *)
Definition digit_in (radix : Z) (c : ascii) : option Z :=
  let n := Z.of_nat (nat_of_ascii c) in
  let v := if (48 <=? n) && (n <=? 57) then n - 48
           else if (97 <=? n) && (n <=? 102) then n - 87
           else if (65 <=? n) && (n <=? 70) then n - 55
           else radix in
  if v <? radix then Some v else None.

Definition digit_of (c : ascii) : option Z := digit_in 10 c.

(** The longest run of decimal digits at the head of [s]: its value
    read after [acc], its length added to [n], and the rest. *)
Fixpoint read_digits (acc n : Z) (s : string) : Z * Z * string :=
  match s with
  | String c rest =>
      match digit_of c with
      | Some d => read_digits (10 * acc + d) (n + 1) rest
      | None => (acc, n, s)
      end
  | EmptyString => (acc, n, s)
  end.

(** A string made of digits of the radix only. *)
Fixpoint radix_digits (radix acc : Z) (s : string) : option Z :=
  match s with
  | EmptyString => Some acc
  | String c rest =>
      match digit_in radix c with
      | Some d => radix_digits radix (radix * acc + d) rest
      | None => None
      end
  end.

(** What follows [0x], [0o] or [0b]. *)
Definition radix_literal (radix : Z) (s : string) : JsNum :=
  match s with
  | EmptyString => NaN
  | _ => match radix_digits radix 0 s with Some z => Fin z | None => NaN end
  end.

Definition radix_prefix (s : string) : option (Z * string) :=
  match s with
  | String c1 (String c2 rest) =>
      if Ascii.eqb c1 "0" then
        if Ascii.eqb c2 "x" || Ascii.eqb c2 "X" then Some (16, rest)
        else if Ascii.eqb c2 "o" || Ascii.eqb c2 "O" then Some (8, rest)
        else if Ascii.eqb c2 "b" || Ascii.eqb c2 "B" then Some (2, rest)
        else None
      else None
  | _ => None
  end.

(** The exponent after [e]: an optional sign and digits, to the end. *)
Definition signed_integer (s : string) : option Z :=
  let '(neg, body) :=
    match s with
    | String c rest =>
        if Ascii.eqb c "+" then (false, rest)
        else if Ascii.eqb c "-" then (true, rest)
        else (false, s)
    | EmptyString => (false, s)
    end in
  match read_digits 0 0 body with
  | (v, n, EmptyString) =>
      if 0 <? n then Some (if neg then - v else v) else None
  | _ => None
  end.

(** [mant * 10 ^ e] for a mantissa that is not negative. *)
Definition scale (mant e : Z) : JsNum :=
  if 0 <=? e then Fin (mant * 10 ^ e)
  else
    let p := 10 ^ (- e) in
    if mant mod p =? 0 then Fin (mant / p) else Frac (mant / p).

(** [Infinity], or digits with an optional fraction and exponent. *)
Definition unsigned_literal (s : string) : JsNum :=
  if String.eqb s "Infinity" then PInf
  else
    let '(ip, ni, s1) := read_digits 0 0 s in
    let '(mant, nf, s2) :=
      match s1 with
      | String c rest =>
          if Ascii.eqb c "." then read_digits ip 0 rest else (ip, 0, s1)
      | EmptyString => (ip, 0, s1)
      end in
    if ni + nf =? 0 then NaN
    else
      match s2 with
      | EmptyString => scale mant (- nf)
      | String c rest =>
          if Ascii.eqb c "e" || Ascii.eqb c "E" then
            match signed_integer rest with
            | Some e => scale mant (e - nf)
            | None => NaN
            end
          else NaN
      end.

(** [Number(s)]: white space is trimmed; the empty text is 0; then a
    radix literal, or an optional sign and a decimal literal; anything
    else is NaN. *)
Definition Number (s : string) : JsNum :=
  let t := trim_right (trim_left s) in
  match t with
  | EmptyString => Fin 0
  | String c rest =>
      if Ascii.eqb c "+" then unsigned_literal rest
      else if Ascii.eqb c "-" then negate (unsigned_literal rest)
      else match radix_prefix t with
           | Some (radix, digits) => radix_literal radix digits
           | None => unsigned_literal t
           end
  end.

(** [const [a, b, c] = arr]: the i-th element or [undefined]. *)
Definition elem (l : list JsNum) (i : nat) : JsVal := l !! i.

(** *** Day numbers and the civil calendar (ECMA-262 21.4.1.3 - 21.4.1.11) *)

Definition msPerDay : Z := 86400000.
Definition Day (t : Z) : Z := t / msPerDay.
Definition TimeWithinDay (t : Z) : Z := t mod msPerDay.

Definition leap (y : Z) : bool :=
  (y mod 4 =? 0) && (negb (y mod 100 =? 0) || (y mod 400 =? 0)).

Definition DaysInYear (y : Z) : Z := if leap y then 366 else 365.

Definition DayFromYear (y : Z) : Z :=
  365 * (y - 1970) + (y - 1969) / 4 - (y - 1901) / 100 + (y - 1601) / 400.

(** The year a day number falls in: the largest [y] with
    [DayFromYear y <= n] (lemma [YearFromDay_spec]), computed through
    the 400-, 100- and 4-year cycles counted from 1601. *)
Definition YearFromDay (n : Z) : Z :=
  let p := n + 134774 in
  let q400 := p / 146097 in
  let r := p mod 146097 in
  let q100 := Z.min (r / 36524) 3 in
  let r1 := r - 36524 * q100 in
  let q4 := r1 / 1461 in
  let r2 := r1 mod 1461 in
  let q1 := Z.min (r2 / 365) 3 in
  1601 + 400 * q400 + 100 * q100 + 4 * q4 + q1.

Definition DayWithinYear (n : Z) : Z := n - DayFromYear (YearFromDay n).

(** First day (within the year) of month [m] (0 = January); [m = 12]
    is the length of the year. *)
Definition month_start (lp : bool) (m : Z) : Z :=
  let l := if lp then 1 else 0 in
  match m with
  | 0 => 0 | 1 => 31 | 2 => 59 + l | 3 => 90 + l | 4 => 120 + l
  | 5 => 151 + l | 6 => 181 + l | 7 => 212 + l | 8 => 243 + l
  | 9 => 273 + l | 10 => 304 + l | 11 => 334 + l | _ => 365 + l
  end.

Definition month_of_yday (lp : bool) (d : Z) : Z :=
  if d <? month_start lp 1 then 0
  else if d <? month_start lp 2 then 1
  else if d <? month_start lp 3 then 2
  else if d <? month_start lp 4 then 3
  else if d <? month_start lp 5 then 4
  else if d <? month_start lp 6 then 5
  else if d <? month_start lp 7 then 6
  else if d <? month_start lp 8 then 7
  else if d <? month_start lp 9 then 8
  else if d <? month_start lp 10 then 9
  else if d <? month_start lp 11 then 10
  else 11.

Definition MonthFromDay (n : Z) : Z :=
  month_of_yday (leap (YearFromDay n)) (DayWithinYear n).

Definition DateFromDay (n : Z) : Z :=
  DayWithinYear n
  - month_start (leap (YearFromDay n)) (MonthFromDay n) + 1.

(** MakeDay on integers: months outside 0..11 carry into the year,
    the date counts on from the first of the month. *)
Definition MakeDay (year month date : Z) : Z :=
  let ym := year + month / 12 in
  let mn := month mod 12 in
  DayFromYear ym + month_start (leap ym) mn + date - 1.

Definition MakeTime (h mi s ms : Z) : Z :=
  h * 3600000 + mi * 60000 + s * 1000 + ms.

Definition MakeDate (day time : Z) : Z := day * msPerDay + time.

(** *** Date objects

    A Date is its time value: milliseconds since the epoch in UTC, or
    [None] for the invalid date (time value NaN). *)
Definition Date := option Z.

Definition TimeClip (t : Z) : Date :=
  if Z.abs t <=? 8640000000000000 then Some t else None.

(** The clock and zone of the viewer: [now] is what [new Date()]
    reads, [tza] the offset of local time from UTC in milliseconds. *)
Record Clock := { now : Z; tza : Z }.

Definition LocalTime (c : Clock) (t : Z) : Z := t + tza c.
Definition UTC (c : Clock) (t : Z) : Z := t - tza c.

(** [new Date()]. *)
Definition Date_now (c : Clock) : Date := Some (now c).

(** [new Date(year, month, date, hours, minutes)]: local components;
    a year 0..99 means 1900 + year. *)
Definition Date_of_parts (c : Clock) (year month date hours minutes : JsNum)
  : Date :=
  match integer_part year, integer_part month, integer_part date,
        integer_part hours, integer_part minutes with
  | Some y, Some m, Some dt, Some h, Some mi =>
      let yr := if (0 <=? y) && (y <=? 99) then 1900 + y else y in
      TimeClip (UTC c (MakeDate (MakeDay yr m dt) (MakeTime h mi 0 0)))
  | _, _, _, _, _ => None
  end.

(** [new Date(year, month, date)]. *)
Definition Date_of_ymd (c : Clock) (year month date : JsNum) : Date :=
  Date_of_parts c year month date (Fin 0) (Fin 0).

(** [getFullYear()], [getMonth()], [getDate()]: local fields, NaN on
    the invalid date. *)
Definition getFullYear (c : Clock) (d : Date) : JsNum :=
  match d with Some t => Fin (YearFromDay (Day (LocalTime c t))) | None => NaN end.
Definition getMonth (c : Clock) (d : Date) : JsNum :=
  match d with Some t => Fin (MonthFromDay (Day (LocalTime c t))) | None => NaN end.
Definition getDate (c : Clock) (d : Date) : JsNum :=
  match d with Some t => Fin (DateFromDay (Day (LocalTime c t))) | None => NaN end.

(** [a === b] on numbers: NaN equals nothing.  (Two numbers that are
    not integers are not compared by their value here; the code only
    compares fields of Dates, which are integers or NaN.) *)
Definition strict_eq (a b : JsNum) : bool :=
  match a, b with
  | Fin x, Fin y => x =? y
  | PInf, PInf | NInf, NInf => true
  | _, _ => false
  end.

(** [a < b] on Dates (their time values; false when either is NaN). *)
Definition date_lt (a b : Date) : bool :=
  match a, b with
  | Some x, Some y => x <? y
  | _, _ => false
  end.

(** [isNaN(d.getTime())]. *)
Definition invalid (d : Date) : bool :=
  match d with Some _ => false | None => true end.

(** *** [new Date(string)] on the ISO forms (ECMA-262 21.4.1.32)

    A date-only text [YYYY-MM-DD] is read as UTC midnight; a date-time
    text without offset, [YYYY-MM-DDTHH:mm] or [YYYY-MM-DDTHH:mm:ss],
    as local time.  Texts with milliseconds or a zone designator do
    not occur in the appointment fields and are not modelled; other
    texts are left to the engine by the standard.  Both are read as
    the invalid date here. *)

Fixpoint take_digits (k : nat) (acc : Z) (s : string) : option (Z * string) :=
  match k with
  | O => Some (acc, s)
  | S k' =>
      match s with
      | String c rest =>
          match digit_of c with
          | Some d => take_digits k' (10 * acc + d) rest
          | None => None
          end
      | EmptyString => None
      end
  end.

Definition expect (c : ascii) (s : string) : option string :=
  match s with
  | String c' rest => if Ascii.eqb c c' then Some rest else None
  | EmptyString => None
  end.

Definition parse_iso_time (s : string) : option Z :=
  '(h, s1) ← take_digits 2 0 s;
  s2 ← expect ":" s1;
  '(mi, s3) ← take_digits 2 0 s2;
  sec ← match s3 with
        | EmptyString => Some 0
        | _ => s4 ← expect ":" s3;
               '(sec, s5) ← take_digits 2 0 s4;
               match s5 with EmptyString => Some sec | _ => None end
        end;
  if (h <=? 23) && (mi <=? 59) && (sec <=? 59)
     || (h =? 24) && (mi =? 0) && (sec =? 0)
  then Some (MakeTime h mi sec 0) else None.

Definition Date_parse (c : Clock) (s : string) : Date :=
  '(y, s1) ← take_digits 4 0 s;
  s2 ← expect "-" s1;
  '(m, s3) ← take_digits 2 0 s2;
  s4 ← expect "-" s3;
  '(d, s5) ← take_digits 2 0 s4;
  if (1 <=? m) && (m <=? 12) && (1 <=? d) && (d <=? 31) then
    match s5 with
    | EmptyString => TimeClip (MakeDate (MakeDay y (m - 1) d) 0)
    | _ => s6 ← expect "T" s5;
           t ← parse_iso_time s6;
           TimeClip (UTC c (MakeDate (MakeDay y (m - 1) d) t))
    end
  else None.

(** *** [toLocaleDateString('en-US', options)]

    What the formatter prints is kept as the fields it prints: the
    local year, month (1 = January) and day and, with the
    [hour]/[minute] options, the local hour (0..23, printed on the
    12-hour clock) and minute.  The invalid date prints as the text
    [Invalid Date]. *)
Inductive Rendered :=
| Literal (text : string)
| LongDate (year month day : Z)
| LongDateTime (year month day hour minute : Z).

Definition toLocaleDateString (c : Clock) (d : Date) : Rendered :=
  match d with
  | None => Literal "Invalid Date"
  | Some t =>
      let n := Day (LocalTime c t) in
      LongDate (YearFromDay n) (MonthFromDay n + 1) (DateFromDay n)
  end.

Definition toLocaleDateString_hm (c : Clock) (d : Date) : Rendered :=
  match d with
  | None => Literal "Invalid Date"
  | Some t =>
      let l := LocalTime c t in
      let n := Day l in
      LongDateTime (YearFromDay n) (MonthFromDay n + 1) (DateFromDay n)
                   (TimeWithinDay l / 3600000)
                   ((TimeWithinDay l / 60000) mod 60)
  end.

End Js.

Import Js.

(* ================================================================== *)
(** ** Data model                                                      *)
(* ================================================================== *)

(** [interface Appointment]: the fields the code below reads (the
    display copies of the service centre and user are left out). *)
Record Appointment := {
  id : Z;
  ticket_number : string;
  appointment_type : string;
  appointment_date : string;
  scheduled_time : string;
  status : string
}.

(** The body of [GET /queue/position/{id}]. *)
Record QueueStatus := {
  position : Z;
  estimated_wait_time : Z;
  total_ahead : option Z
}.

(** JSON values, for the [detail] of an error payload and for what is
    handed to [toast.error]. *)
#[local] Set Warnings "-register-all".
Inductive Json :=
| JNull
| JBool (b : bool)
| JNumber (z : Z)
| JString (s : string)
| JArray (items : list Json)
| JObject (fields : list (string * Json)).
#[local] Set Warnings "+register-all".

(** ToBoolean on a JSON value or [undefined]. *)
Definition json_truthy (v : option Json) : bool :=
  match v with
  | None | Some JNull | Some (JBool false) | Some (JNumber 0)
  | Some (JString EmptyString) => false
  | Some _ => true
  end.

(** What the handlers read off a rejected axios call:
    [error.response?.status] and [error.response?.data?.detail]
    ([None] is [undefined]). *)
Record AxiosError := {
  response_status : option Z;
  response_detail : option Json
}.

Inductive Response (A : Type) :=
| Fulfilled (data : A)
| Rejected (error : AxiosError).
Arguments Fulfilled {A} data.
Arguments Rejected {A} error.

(** The backend as the pages see it during one handler run. *)
Record Backend := {
  getMyAppointments : Response (list Appointment);
  getQueuePosition : Z -> Response QueueStatus;
  checkIn : Z -> Response unit;
  cancelAppointment : Z -> Response unit
}.

Inductive Request :=
| GET_appointments_my
| GET_queue_position (appointmentId : Z)
| POST_queue_checkin (appointmentId : Z)
| PUT_appointments_cancel (appointmentId : Z).

(** What a handler does to the outside, in order. *)
Inductive Effect :=
| Sent (r : Request)
| ToastError (content : Json)
| ToastSuccess (text : string)
| ConsoleError (text : string).

(* ================================================================== *)
(** ** Expressions the pages share                                     *)
(* ================================================================== *)

(** An optional string argument used as a condition ([if (timeString)],
    [timeString ? .. : ..]): the string when it is given and not empty. *)
Definition given (timeString : option string) : option string :=
  match timeString with
  | Some EmptyString | None => None
  | Some t => Some t
  end.

(** [const [y, m, d] = dateString.split('-').map(Number);
     new Date(y, (m || 1) - 1, d || 1, hours, minutes)] *)
Definition appt_date (c : Clock) (dateString : string) (hours minutes : JsNum)
  : Date :=
  let nums := map Number (split "-" dateString) in
  Date_of_parts c (ToNumber (elem nums 0))
                  (minus1 (or_default (elem nums 1) 1))
                  (or_default (elem nums 2) 1)
                  hours minutes.

(** [new Date(today.getFullYear(), today.getMonth(), today.getDate())] *)
Definition today_midnight (c : Clock) : Date :=
  let today := Date_now c in
  Date_of_ymd c (getFullYear c today) (getMonth c today) (getDate c today).

(** [const [hours, minutes] = timeString.split(':').map(Number);
     new Date(y, (m || 1) - 1, d || 1, hours || 0, minutes || 0)] *)
Definition appt_date_time (c : Clock) (dateString t : string) : Date :=
  let nums := map Number (split ":" t) in
  appt_date c dateString (or_default (elem nums 0) 0)
                         (or_default (elem nums 1) 0).

(* ================================================================== *)
(** ** Appointments.tsx

    Dashboard.tsx carries the same functions; its [fetchAppointments]
    differs in the text it logs and in not setting [loading] at the
    start. *)
(* ================================================================== *)

Module Appointments.

(** [formatDate] *)
Definition formatDate (c : Clock) (dateString : string) : Rendered :=
  if String.eqb dateString "" then Literal "N/A"
  else
    let date := Date_parse c dateString in
    if invalid date then
      let parts := split "-" dateString in
      if (List.length parts =? 3)%nat then
        let nums := map Number parts in
        let parsedDate :=
          Date_of_ymd c (ToNumber (elem nums 0))
                        (minus1 (ToNumber (elem nums 1)))
                        (ToNumber (elem nums 2)) in
        if negb (invalid parsedDate) then toLocaleDateString c parsedDate
        else Literal "Invalid Date"
      else Literal "Invalid Date"
    else toLocaleDateString c date.

(** [formatDateTime] *)
Definition formatDateTime (c : Clock) (dateString : string)
    (timeString : option string) : Rendered :=
  if String.eqb dateString "" then Literal "N/A"
  else
    let date :=
      match given timeString with
      | Some t => Date_parse c (dateString ++ "T" ++ t)
      | None => Date_parse c dateString
      end in
    if invalid date then
      let parts := split "-" dateString in
      if (List.length parts =? 3)%nat then
        let nums := map Number parts in
        let parsedDate :=
          Date_of_ymd c (ToNumber (elem nums 0))
                        (minus1 (ToNumber (elem nums 1)))
                        (ToNumber (elem nums 2)) in
        if negb (invalid parsedDate) then toLocaleDateString c parsedDate
        else Literal "Invalid Date/Time"
      else Literal "Invalid Date/Time"
    else toLocaleDateString_hm c date.

(** [isToday] *)
Definition isToday (c : Clock) (dateString : string) : bool :=
  if String.eqb dateString "" then false
  else
    let apptLocal := appt_date c dateString (Fin 0) (Fin 0) in
    let today := Date_now c in
    strict_eq (getFullYear c apptLocal) (getFullYear c today)
    && strict_eq (getMonth c apptLocal) (getMonth c today)
    && strict_eq (getDate c apptLocal) (getDate c today).

(** [isPastAppointment] *)
Definition isPastAppointment (c : Clock) (dateString : string)
    (timeString : option string) : bool :=
  if String.eqb dateString "" then false
  else
    let apptDate := appt_date c dateString (Fin 0) (Fin 0) in
    if date_lt apptDate (today_midnight c) then true
    else if isToday c dateString then
      match given timeString with
      | Some t => date_lt (appt_date_time c dateString t) (Date_now c)
      | None => false
      end
    else false.

(** [canCheckIn] *)
Definition canCheckIn (c : Clock) (appointment : Appointment) : bool :=
  String.eqb (status appointment) "scheduled"
  && isToday c (appointment_date appointment)
  && negb (isPastAppointment c (appointment_date appointment)
             (Some (scheduled_time appointment))).

(** The component state the handlers touch. *)
Record PageState := {
  appointments : list Appointment;
  queueStatus : gmap Z QueueStatus;
  loading : bool;
  cancelDialogOpen : bool;
  appointmentToCancel : option Appointment
}.

(** The state after mount, before the first fetch:
    [useState([])], [useState({})], [useState(true)]. *)
Definition initial : PageState :=
  {| appointments := []; queueStatus := ∅; loading := true;
     cancelDialogOpen := false; appointmentToCancel := None |}.

Definition active (apt : Appointment) : bool :=
  String.eqb (status apt) "confirmed" || String.eqb (status apt) "in_progress".

(** One turn of the [for ... of] loop: the request, then either
    [setQueueStatus(prev => ({...prev, [id]: data}))] or the
    [console.error] of the inner [catch]. *)
Definition fetch_one (srv : Backend) (acc : gmap Z QueueStatus * list Effect)
    (appointment : Appointment) : gmap Z QueueStatus * list Effect :=
  match getQueuePosition srv (id appointment) with
  | Fulfilled data =>
      (<[id appointment := data]> (acc.1),
       (acc.2 ++ [Sent (GET_queue_position (id appointment))])%list)
  | Rejected _ =>
      (acc.1,
       (acc.2 ++ [Sent (GET_queue_position (id appointment));
                  ConsoleError "Failed to fetch queue status for appointment:"])%list)
  end.

(** [fetchAppointments] *)
Definition fetchAppointments (srv : Backend) (st : PageState)
  : PageState * list Effect :=
  match getMyAppointments srv with
  | Fulfilled data =>
      let activeAppointments := filter (λ apt, active apt = true) data in
      let '(qs, log) :=
        foldl (fetch_one srv) (queueStatus st, [Sent GET_appointments_my])
              activeAppointments in
      ({| appointments := data; queueStatus := qs; loading := false;
          cancelDialogOpen := cancelDialogOpen st;
          appointmentToCancel := appointmentToCancel st |}, log)
  | Rejected _ =>
      ({| appointments := appointments st; queueStatus := queueStatus st;
          loading := false;
          cancelDialogOpen := cancelDialogOpen st;
          appointmentToCancel := appointmentToCancel st |},
       [Sent GET_appointments_my;
        ToastError (JString "Failed to fetch appointments");
        ConsoleError "Error fetching appointments:"])
  end.

(** [handleCancelAppointment] *)
Definition handleCancelAppointment (srv : Backend) (st : PageState)
  : PageState * list Effect :=
  match appointmentToCancel st with
  | None => (st, [])
  | Some apt =>
      match cancelAppointment srv (id apt) with
      | Fulfilled _ =>
          let st1 :=
            {| appointments := appointments st; queueStatus := queueStatus st;
               loading := loading st; cancelDialogOpen := false;
               appointmentToCancel := None |} in
          let '(st2, log) := fetchAppointments srv st1 in
          (st2, ([Sent (PUT_appointments_cancel (id apt));
                  ToastSuccess "Appointment cancelled successfully"] ++ log)%list)
      | Rejected _ =>
          (st, [Sent (PUT_appointments_cancel (id apt));
                ToastError (JString "Failed to cancel appointment");
                ConsoleError "Error cancelling appointment:"])
      end
  end.

(** [handleCheckIn] *)
Definition handleCheckIn (c : Clock) (srv : Backend) (st : PageState)
    (appointmentId : Z) : PageState * list Effect :=
  match find (λ apt, id apt =? appointmentId) (appointments st) with
  | None => (st, [ToastError (JString "Appointment not found")])
  | Some appointment =>
      if negb (canCheckIn c appointment) then
        if negb (String.eqb (status appointment) "scheduled") then
          (st, [ToastError
                  (JString "Only scheduled appointments can be checked in")])
        else if negb (isToday c (appointment_date appointment)) then
          (st, [ToastError
                  (JString "You can only check in on the appointment date")])
        else if isPastAppointment c (appointment_date appointment)
                  (Some (scheduled_time appointment)) then
          (st, [ToastError (JString "Cannot check in for past appointments")])
        else
          (st, [ToastError
                  (JString "Check-in not available for this appointment")])
      else
        match checkIn srv appointmentId with
        | Fulfilled _ =>
            let '(st', log) := fetchAppointments srv st in
            (st', ([Sent (POST_queue_checkin appointmentId);
                    ToastSuccess "Checked in successfully!"] ++ log)%list)
        | Rejected error =>
            (st, [Sent (POST_queue_checkin appointmentId);
                  ConsoleError "Check-in error:";
                  ToastError
                    (match response_detail error with
                     | Some detail =>
                         if json_truthy (Some detail) then detail
                         else JString "Failed to check in. Please try again."
                     | None => JString "Failed to check in. Please try again."
                     end)])
        end
  end.

End Appointments.

(* ================================================================== *)
(** ** The MyQueue component                                           *)
(* ================================================================== *)

Module MyQueue.

(** An appointment of the queue view: [{...appointment, queueInfo}],
    where [queueInfo] is the fetched record or [null] ([None]). *)
Record QueueAppointment := {
  appointment : Appointment;
  queueInfo : option QueueStatus
}.

Record PageState := {
  queueData : list QueueAppointment;
  loading : bool;
  refreshing : bool
}.

Definition initial : PageState :=
  {| queueData := []; loading := true; refreshing := false |}.

(** [formatDateTime] *)
Definition formatDateTime (c : Clock) (dateString : string)
    (timeString : option string) : Rendered :=
  let iso :=
    match given timeString with
    | Some t => dateString ++ "T" ++ t
    | None => dateString
    end in
  toLocaleDateString_hm c (Date_parse c iso).

(** [isToday] (no guard on the empty string here) *)
Definition isToday (c : Clock) (dateString : string) : bool :=
  let apptLocal := appt_date c dateString (Fin 0) (Fin 0) in
  let today := Date_now c in
  strict_eq (getFullYear c apptLocal) (getFullYear c today)
  && strict_eq (getMonth c apptLocal) (getMonth c today)
  && strict_eq (getDate c apptLocal) (getDate c today).

(** [isPastAppointment] *)
Definition isPastAppointment (c : Clock) (dateString : string)
    (timeString : option string) : bool :=
  let apptDate := appt_date c dateString (Fin 0) (Fin 0) in
  if date_lt apptDate (today_midnight c) then true
  else if isToday c dateString then
    match given timeString with
    | Some t => date_lt (appt_date_time c dateString t) (Date_now c)
    | None => false
    end
  else false.

(** The condition under which the card renders its Check In button. *)
Definition checkInButton (c : Clock) (a : Appointment) : bool :=
  String.eqb (status a) "scheduled"
  && isToday c (appointment_date a)
  && negb (isPastAppointment c (appointment_date a) (Some (scheduled_time a))).

Definition active (apt : Appointment) : bool :=
  String.eqb (status apt) "confirmed"
  || String.eqb (status apt) "in_progress"
  || String.eqb (status apt) "scheduled".

(** The callback of [activeAppointments.map(async (appointment) => ..)]:
    the record it resolves to and the request it sends, if any. *)
Definition queue_item (c : Clock) (srv : Backend) (apt : Appointment)
  : QueueAppointment * list Effect :=
  if negb (isToday c (appointment_date apt)) then
    ({| appointment := apt; queueInfo := None |}, [])
  else
    match getQueuePosition srv (id apt) with
    | Fulfilled data =>
        ({| appointment := apt; queueInfo := Some data |},
         [Sent (GET_queue_position (id apt))])
    | Rejected _ =>
        ({| appointment := apt; queueInfo := None |},
         [Sent (GET_queue_position (id apt))])
    end.

(** [fetchQueueData]: [Promise.all] over the callbacks, then
    [setQueueData(queueResults)]. *)
Definition fetchQueueData (c : Clock) (srv : Backend) (st : PageState)
  : PageState * list Effect :=
  match getMyAppointments srv with
  | Fulfilled data =>
      let activeAppointments := filter (λ apt, active apt = true) data in
      let queueResults := map (queue_item c srv) activeAppointments in
      ({| queueData := map fst queueResults;
          loading := false; refreshing := false |},
       Sent GET_appointments_my :: List.concat (map snd queueResults))
  | Rejected _ =>
      ({| queueData := queueData st; loading := false; refreshing := false |},
       [Sent GET_appointments_my;
        ToastError (JString "Failed to fetch queue information")])
  end.

(** [handleCheckIn] *)
Definition handleCheckIn (c : Clock) (srv : Backend) (st : PageState)
    (appointmentId : Z) : PageState * list Effect :=
  match checkIn srv appointmentId with
  | Fulfilled _ =>
      let '(st', log) := fetchQueueData c srv st in
      (st', ([Sent (POST_queue_checkin appointmentId);
              ToastSuccess "Checked in successfully!"] ++ log)%list)
  | Rejected _ =>
      (st, [Sent (POST_queue_checkin appointmentId);
            ToastError (JString "Failed to check in")])
  end.

End MyQueue.

(* ================================================================== *)
(** ** BookAppointment.tsx: the error normaliser of [handleSubmit]     *)
(* ================================================================== *)

Module BookAppointment.

Section Normaliser.

(** [JSON.stringify] and the ToString that [Array.prototype.join]
    applies to an element that is not a string. *)
Variable JSON_stringify : Json -> string.
Variable ToString : Json -> string.

(** [d?.msg]: the property of an object, [undefined] otherwise. *)
Definition msg (d : Json) : option Json :=
  match d with
  | JObject fields => snd <$> find (λ kv, String.eqb (fst kv) "msg") fields
  | _ => None
  end.

(** [d?.msg || (typeof d === 'string' ? d : JSON.stringify(d))] *)
Definition item_text (d : Json) : Json :=
  match msg d with
  | Some m =>
      if json_truthy (Some m) then m
      else JString (JSON_stringify d)
  | None =>
      match d with
      | JString s => JString s
      | _ => JString (JSON_stringify d)
      end
  end.

Definition join_text (v : Json) : string :=
  match v with
  | JString s => s
  | JNull => ""
  | other => ToString other
  end.

(** [items.join('; ')] *)
Fixpoint join (items : list Json) : string :=
  match items with
  | [] => ""
  | [v] => join_text v
  | v :: rest => join_text v ++ "; " ++ join rest
  end.

(** The [message] computed in the [catch] of [handleSubmit]. *)
Definition message (detail : option Json) : Json :=
  match detail with
  | Some d =>
      if json_truthy (Some d) then
        match d with
        | JString s => JString s
        | JArray items => JString (join (map item_text items))
        | JObject _ =>
            match msg d with
            | Some m =>
                if json_truthy (Some m) then m
                else JString (JSON_stringify d)
            | None => JString (JSON_stringify d)
            end
        | _ => JString "Failed to book appointment"
        end
      else JString "Failed to book appointment"
  | None => JString "Failed to book appointment"
  end.

End Normaliser.

End BookAppointment.

(* ================================================================== *)
(** ** services/api.ts: the response interceptor                       *)
(* ================================================================== *)

Module Api.

(** The browser state the interceptor writes. *)
Record Browser := {
  localStorage : gmap string string;
  location_href : string
}.

(** [(response) => response] *)
Definition on_fulfilled {A : Type} (response : A) : A := response.

(** [(error) => { if (error.response?.status === 401) {
       localStorage.removeItem('token');
       window.location.href = '/login'; }
     return Promise.reject(error); }]

    The browser state returned is the one in force when the rejected
    promise is handed back. *)
Definition on_rejected {A : Type} (error : AxiosError) (b : Browser)
  : Browser * Response A :=
  if bool_decide (response_status error = Some 401) then
    let b1 := {| localStorage := delete "token" (localStorage b);
                 location_href := location_href b |} in
    let b2 := {| localStorage := localStorage b1;
                 location_href := "/login" |} in
    (b2, Rejected error)
  else (b, Rejected error).

End Api.

(* ================================================================== *)
(** ** Calendar vocabulary of the statements                           *)
(* ================================================================== *)

(** Length of month [m] (1 = January) of year [y]. *)
Definition days_in_month (y m : Z) : Z :=
  month_start (leap y) m - month_start (leap y) (m - 1).

(** A calendar date: month 1..12, day within the month. *)
Definition valid_date (y m d : Z) : Prop :=
  1 <= m <= 12 /\ 1 <= d <= days_in_month y m.

(** Calendar dates in their order: year, then month, then day. *)
Definition civil_lt (a b : Z * Z * Z) : Prop :=
  let '(y1, m1, d1) := a in
  let '(y2, m2, d2) := b in
  y1 < y2 \/ (y1 = y2 /\ (m1 < m2 \/ (m1 = m2 /\ d1 < d2))).

(** The viewer's calendar date now: year, month 1..12, day. *)
Definition local_date (c : Clock) : Z * Z * Z :=
  let n := Day (LocalTime c (now c)) in
  (YearFromDay n, MonthFromDay n + 1, DateFromDay n).

(** The viewer's time of day now, in milliseconds since local midnight. *)
Definition local_time_of_day (c : Clock) : Z :=
  TimeWithinDay (LocalTime c (now c)).

(** A clock at or after the epoch, within the range of time values,
    in a zone at most a day away from UTC. *)
Definition clock_ok (c : Clock) : Prop :=
  0 <= now c <= 8640000000000000 /\ - msPerDay <= tza c <= msPerDay.

(** A well-formed date string: three numeric components, a four-digit
    year from 0100 on, a calendar date. *)
Definition reads_date (dateString : string) (y m d : Z) : Prop :=
  map Number (split "-" dateString) = [Fin y; Fin m; Fin d]
  /\ 100 <= y <= 9999 /\ valid_date y m d.

(** A well-formed time string, or none: hours and minutes (and
    whatever follows them) in range. *)
Definition reads_time (timeString : option string) (tm : option (Z * Z))
  : Prop :=
  match timeString with
  | None => tm = None
  | Some t =>
      exists h mi rest,
        map Number (split ":" t) = Fin h :: Fin mi :: rest
        /\ 0 <= h <= 23 /\ 0 <= mi <= 59 /\ tm = Some (h, mi)
  end.

(** The claim's reading of "past", on the booked date and time with
    its seconds: the date is before today's, or it is today's, a time
    is given and the date-time is before now. *)
Definition isPast_as_claimed (c : Clock) (date : Z * Z * Z)
    (time : option (Z * Z * Z)) : Prop :=
  civil_lt date (local_date c)
  \/ (date = local_date c
      /\ exists h mi s, time = Some (h, mi, s)
           /\ MakeTime h mi s 0 < local_time_of_day c).

(** The year component of a date string as the pages read it. *)
Definition year_component (dateString : string) : JsNum :=
  ToNumber (elem (map Number (split "-" dateString)) 0).

Definition finite (n : JsNum) : bool :=
  match n with Fin _ | Frac _ => true | _ => false end.

(** The queue-status map a run of a handler leaves. *)
Definition queueStatus_of (r : Appointments.PageState * list Effect)
  : gmap Z QueueStatus :=
  Appointments.queueStatus r.1.

(** The ids a queue view holds an entry for. *)
Definition queue_ids (st : MyQueue.PageState) : list Z :=
  map (λ qa, id (MyQueue.appointment qa)) (MyQueue.queueData st).

(** A toast whose content is a display string. *)
Definition shows_text (e : Effect) : Prop :=
  match e with
  | ToastError (JString _) => True
  | ToastError _ => False
  | _ => True
  end.

Definition is_toast_error (e : Effect) : Prop :=
  match e with ToastError _ => True | _ => False end.

(* ================================================================== *)
(** ** Sample inputs                                                   *)
(* ================================================================== *)

(** 10 March 2025, 14:30:20 local time, five hours west of UTC. *)
Definition clk : Clock := {| now := 1741635020000; tza := -18000000 |}.

Definition appt (i : Z) (date time st : string) : Appointment :=
  {| id := i; ticket_number := "T-001"; appointment_type := "new_id";
     appointment_date := date; scheduled_time := time; status := st |}.

Definition q2 : QueueStatus :=
  {| position := 2; estimated_wait_time := 10; total_ahead := None |}.

Definition no_response : AxiosError :=
  {| response_status := None; response_detail := None |}.

(** A backend that lists [data] and answers position requests by [pos]. *)
Definition backend (data : list Appointment) (pos : Z -> Response QueueStatus)
  : Backend :=
  {| getMyAppointments := Fulfilled data;
     getQueuePosition := pos;
     checkIn := λ _, Fulfilled tt;
     cancelAppointment := λ _, Fulfilled tt |}.

(** A backend that rejects check-in and cancel with [error]. *)
Definition refusing (error : AxiosError) : Backend :=
  {| getMyAppointments := Fulfilled [];
     getQueuePosition := λ _, Rejected no_response;
     checkIn := λ _, Rejected error;
     cancelAppointment := λ _, Rejected error |}.

(* ================================================================== *)
(** ** Further functions of the pages                                  *)
(* ================================================================== *)

(** *** [formatTime] (Appointments.tsx, Dashboard.tsx) *)

Module TimeFormat.

(** What [toLocaleTimeString('en-US', {hour: '2-digit', minute:
    '2-digit'})] prints, kept as the local hour (0..23, printed on the
    12-hour clock) and minute; or a fixed text. *)
Inductive RenderedTime :=
| TimeLiteral (text : string)
| HourMinute (hour minute : Z).

Definition toLocaleTimeString (c : Clock) (d : Date) : RenderedTime :=
  match d with
  | None => TimeLiteral "Invalid Date"
  | Some t =>
      let l := LocalTime c t in
      HourMinute (TimeWithinDay l / 3600000) ((TimeWithinDay l / 60000) mod 60)
  end.

(** [s.includes(ch)] for a one-character text. *)
Fixpoint includes_char (ch : ascii) (s : string) : bool :=
  match s with
  | EmptyString => false
  | String c rest => Ascii.eqb c ch || includes_char ch rest
  end.

(** [parseInt(s, 10)]: leading white space, an optional sign, then the
    longest run of decimal digits; NaN when there is none. *)
Definition parseInt10 (s : string) : JsNum :=
  let t := trim_left s in
  let '(neg, body) :=
    match t with
    | String c rest =>
        if Ascii.eqb c "+" then (false, rest)
        else if Ascii.eqb c "-" then (true, rest)
        else (false, t)
    | EmptyString => (false, t)
    end in
  let '(v, n, _) := read_digits 0 0 body in
  if 0 <? n then Fin (if neg then - v else v) else NaN.

(** [lo <= n && n <= hi] on a number (false on NaN). *)
Definition between (lo hi : Z) (n : JsNum) : bool :=
  match n with
  | Fin z => (lo <=? z) && (z <=? hi)
  | _ => false
  end.

(** [date.setHours(hours, minutes, 0, 0)] *)
Definition setHours (c : Clock) (d : Date) (hours minutes : JsNum) : Date :=
  match d, integer_part hours, integer_part minutes with
  | Some tv, Some h, Some mi =>
      TimeClip (UTC c (MakeDate (Day (LocalTime c tv)) (MakeTime h mi 0 0)))
  | _, _, _ => None
  end.

(** [formatTime] *)
Definition formatTime (c : Clock) (timeString : string) : RenderedTime :=
  if String.eqb timeString "" then TimeLiteral "N/A"
  else if includes_char "T" timeString || includes_char " " timeString then
    let date := Date_parse c timeString in
    if invalid date then TimeLiteral "Invalid Time"
    else toLocaleTimeString c date
  else
    let timeParts := split ":" timeString in
    if (2 <=? List.length timeParts)%nat then
      let hours := parseInt10 (nth 0 timeParts "") in
      let minutes := parseInt10 (nth 1 timeParts "") in
      if between 0 23 hours && between 0 59 minutes then
        toLocaleTimeString c (setHours c (Date_now c) hours minutes)
      else TimeLiteral "Invalid Time"
    else TimeLiteral "Invalid Time".

End TimeFormat.

(** *** Tabs and the cancel button of Appointments.tsx *)

Module Tabs.

Definition has_status (st : string) (apt : Appointment) : bool :=
  String.eqb (status apt) st.

Definition upcomingAppointments (filteredAppointments : list Appointment) :=
  filter (λ apt, has_status "scheduled" apt || has_status "confirmed" apt = true)
         filteredAppointments.

Definition activeAppointments (filteredAppointments : list Appointment) :=
  filter (λ apt, has_status "in_progress" apt = true) filteredAppointments.

Definition completedAppointments (filteredAppointments : list Appointment) :=
  filter (λ apt, has_status "completed" apt = true) filteredAppointments.

Definition cancelledAppointments (filteredAppointments : list Appointment) :=
  filter (λ apt, has_status "cancelled" apt || has_status "no_show" apt = true)
         filteredAppointments.

(** [getTabAppointments] *)
Definition getTabAppointments (selectedTab : Z)
    (filteredAppointments : list Appointment) : list Appointment :=
  match selectedTab with
  | 0 => filteredAppointments
  | 1 => upcomingAppointments filteredAppointments
  | 2 => activeAppointments filteredAppointments
  | 3 => completedAppointments filteredAppointments
  | 4 => cancelledAppointments filteredAppointments
  | _ => filteredAppointments
  end.

(** [canCancelAppointment] *)
Definition canCancelAppointment (apt : Appointment) : bool :=
  has_status "scheduled" apt || has_status "confirmed" apt.

End Tabs.

(** *** The lists of the Dashboard.tsx home page *)

Module Home.

Definition upcomingAppointments (appointments : list Appointment) :=
  filter (λ apt, Tabs.has_status "scheduled" apt
                 || Tabs.has_status "confirmed" apt = true) appointments.


End Home.

(** *** The card of the queue view (MyQueue) *)

Module QueueCard.

(** What the "Queue Information" slot of a card shows. *)
Inductive Panel :=
| TimePassed
| QueueInformation (info : QueueStatus)
| NotAvailable
| AvailableOnTheDay.

Definition panel (c : Clock) (qa : MyQueue.QueueAppointment) : Panel :=
  let apt := MyQueue.appointment qa in
  if MyQueue.isPastAppointment c (appointment_date apt)
       (Some (scheduled_time apt)) then TimePassed
  else match MyQueue.queueInfo qa with
       | Some info => QueueInformation info
       | None =>
           if MyQueue.isToday c (appointment_date apt) then NotAvailable
           else AvailableOnTheDay
       end.

(** The condition of the Cancel button. *)
Definition cancelButton (c : Clock) (apt : Appointment) : bool :=
  negb (String.eqb (status apt) "in_progress")
  && negb (String.eqb (status apt) "completed")
  && negb (MyQueue.isPastAppointment c (appointment_date apt)
             (Some (scheduled_time apt))).

(** The condition of the disabled "Missed Appointment" button. *)
Definition missedButton (c : Clock) (apt : Appointment) : bool :=
  MyQueue.isPastAppointment c (appointment_date apt)
    (Some (scheduled_time apt))
  && String.eqb (status apt) "scheduled".

End QueueCard.

(** *** services/api.ts: the request interceptor *)

Module ApiRequest.

(** The part of an axios request configuration the interceptor
    touches. *)
Record Config := {
  url : string;
  headers : gmap string string
}.

(** [(config) => { const token = localStorage.getItem('token');
       if (token) { config.headers.Authorization = `Bearer ${token}`; }
       return config; }] *)
Definition on_request (b : Api.Browser) (config : Config) : Config :=
  match given (Api.localStorage b !! "token") with
  | Some token =>
      {| url := url config;
         headers := <["Authorization" := "Bearer " ++ token]> (headers config) |}
  | None => config
  end.

End ApiRequest.

(** *** The texts the booking form sends (BookAppointment.tsx)

    [appointment_date.format('YYYY-MM-DD')] and
    [scheduledDateTime.format('HH:mm:ss')]: the fields in decimal,
    padded with zeros. *)

Module Booking.

Definition digit_char (d : Z) : ascii := ascii_of_nat (48 + Z.to_nat d).

Definition two_digits (n : Z) : string :=
  String (digit_char (n / 10)) (String (digit_char (n mod 10)) EmptyString).

Definition four_digits (y : Z) : string :=
  two_digits (y / 100) ++ two_digits (y mod 100).

Definition date_text (y m d : Z) : string :=
  four_digits y ++ "-" ++ two_digits m ++ "-" ++ two_digits d.

Definition time_text (h mi s : Z) : string :=
  two_digits h ++ ":" ++ two_digits mi ++ ":" ++ two_digits s.

End Booking.

(** The day before a calendar date, as a calendar date. *)
Definition day_before (y m d : Z) : Z * Z * Z :=
  let n := MakeDay y (m - 1) d - 1 in
  (YearFromDay n, MonthFromDay n + 1, DateFromDay n).

(** One of the six statuses of the backend. *)
Definition known_status (apt : Appointment) : bool :=
  Tabs.has_status "scheduled" apt || Tabs.has_status "confirmed" apt
  || Tabs.has_status "in_progress" apt || Tabs.has_status "completed" apt
  || Tabs.has_status "cancelled" apt || Tabs.has_status "no_show" apt.

(** [n] is the integer [z]. *)
Definition is_Fin (z : Z) (n : JsNum) : bool :=
  match n with Fin v => v =? z | _ => false end.

(** The position requests of a trace, in order. *)
Definition position_requests (log : list Effect) : list Z :=
  omap (λ e, match e with
             | Sent (GET_queue_position i) => Some i
             | _ => None
             end) log.

(** The check-in requests of a trace, in order. *)
Definition checkin_requests (log : list Effect) : list Z :=
  omap (λ e, match e with
             | Sent (POST_queue_checkin i) => Some i
             | _ => None
             end) log.

(* ================================================================== *)
(** ** The calendar                                                    *)
(* ================================================================== *)

(** Boolean comparisons in the context, as propositions. *)
Ltac ltb_prop :=
  repeat match goal with
         | H : (_ <? _) = true |- _ => apply Z.ltb_lt in H
         | H : (_ <? _) = false |- _ => apply Z.ltb_ge in H
         | H : (_ <=? _) = true |- _ => apply Z.leb_le in H
         | H : (_ <=? _) = false |- _ => apply Z.leb_gt in H
         | H : (_ =? _) = true |- _ => apply Z.eqb_eq in H
         | H : (_ =? _) = false |- _ => apply Z.eqb_neq in H
         end.

(** Evaluate [month_start] at the literal months of the goal. *)
Ltac months :=
  repeat match goal with
         | |- context [month_start ?b ?m] =>
             let v := eval vm_compute in (month_start b m) in
             change (month_start b m) with v
         end.

Section Calendar.

Lemma month_start_mono (lp : bool) m1 m2 :
  0 <= m1 <= m2 -> m2 <= 12 -> month_start lp m1 <= month_start lp m2.
Proof.
  intros H1 H2.
  assert (Hc : forall m, 0 <= m <= 12 ->
               m = 0 \/ m = 1 \/ m = 2 \/ m = 3 \/ m = 4 \/ m = 5 \/ m = 6
               \/ m = 7 \/ m = 8 \/ m = 9 \/ m = 10 \/ m = 11 \/ m = 12) by lia.
  destruct (Hc m1 ltac:(lia)) as [->|[->|[->|[->|[->|[->|[->|[->|[->|[->|[->|[->| ->]]]]]]]]]]]];
  destruct (Hc m2 ltac:(lia)) as [->|[->|[->|[->|[->|[->|[->|[->|[->|[->|[->|[->| ->]]]]]]]]]]]];
    try lia; destruct lp; vm_compute; congruence.
Qed.

Lemma DayFromYear_succ y : DayFromYear (y + 1) = DayFromYear y + DaysInYear y.
Proof.
  unfold DayFromYear, DaysInYear, leap.
  destruct (y mod 4 =? 0) eqn:E4; destruct (y mod 100 =? 0) eqn:E100;
    destruct (y mod 400 =? 0) eqn:E400; simpl;
    rewrite ?Z.eqb_eq, ?Z.eqb_neq in *; zdiv.
Qed.

Lemma DayFromYear_mono y1 y2 : y1 <= y2 -> DayFromYear y1 <= DayFromYear y2.
Proof. unfold DayFromYear. zdiv. Qed.

Lemma DaysInYear_cases y : DaysInYear y = 365 + (if leap y then 1 else 0).
Proof. unfold DaysInYear. by destruct (leap y). Qed.

(** The year of a day number is the largest year starting on or
    before it. *)
Lemma YearFromDay_spec n :
  DayFromYear (YearFromDay n) <= n < DayFromYear (YearFromDay n + 1).
Proof. unfold DayFromYear, YearFromDay. cbv zeta. zdiv. Qed.

Lemma YearFromDay_unique y n :
  DayFromYear y <= n < DayFromYear (y + 1) -> YearFromDay n = y.
Proof.
  intros [Hlo Hhi]. pose proof (YearFromDay_spec n) as [Slo Shi].
  destruct (Z.lt_trichotomy (YearFromDay n) y) as [Hlt | [Heq | Hgt]]; [ | done | ].
  - pose proof (DayFromYear_mono (YearFromDay n + 1) y). lia.
  - pose proof (DayFromYear_mono (y + 1) (YearFromDay n)). lia.
Qed.

Lemma DayWithinYear_range n : 0 <= DayWithinYear n < DaysInYear (YearFromDay n).
Proof.
  unfold DayWithinYear. pose proof (YearFromDay_spec n).
  rewrite DayFromYear_succ in *. lia.
Qed.

Lemma month_of_yday_spec (lp : bool) d :
  0 <= d < 365 + (if lp then 1 else 0) ->
  0 <= month_of_yday lp d <= 11
  /\ month_start lp (month_of_yday lp d) <= d
     < month_start lp (month_of_yday lp d + 1).
Proof.
  intros Hd. unfold month_of_yday.
  destruct lp; cbn in *; repeat case_match; ltb_prop; months; lia.
Qed.

Lemma month_of_yday_unique (lp : bool) m d :
  0 <= m <= 11 ->
  month_start lp m <= d < month_start lp (m + 1) ->
  month_of_yday lp d = m.
Proof.
  intros Hm Hd.
  assert (0 <= d < 365 + (if lp then 1 else 0)) as Hr.
  { pose proof (month_start_mono lp 0 m). pose proof (month_start_mono lp (m + 1) 12).
    change (month_start lp 0) with 0 in *.
    replace (month_start lp 12) with (365 + (if lp then 1 else 0)) in * by by destruct lp.
    lia. }
  destruct (month_of_yday_spec lp d Hr) as [Hk Hs].
  destruct (Z.lt_trichotomy (month_of_yday lp d) m) as [Hlt | [Heq | Hgt]]; [ | done | ].
  - pose proof (month_start_mono lp (month_of_yday lp d + 1) m). lia.
  - pose proof (month_start_mono lp (m + 1) (month_of_yday lp d)). lia.
Qed.


Lemma month_start_12 (lp : bool) : month_start lp 12 = 365 + (if lp then 1 else 0).
Proof. by destruct lp. Qed.

(** On a calendar date [MakeDay] adds the day of the year to the
    start of the year. *)
Lemma MakeDay_valid y m d :
  valid_date y m d ->
  MakeDay y (m - 1) d = DayFromYear y + (month_start (leap y) (m - 1) + d - 1)
  /\ month_start (leap y) (m - 1) <= month_start (leap y) (m - 1) + d - 1
     < month_start (leap y) m
  /\ 0 <= month_start (leap y) (m - 1) + d - 1 < DaysInYear y.
Proof.
  intros [Hm Hd]. unfold days_in_month in Hd. unfold MakeDay. cbv zeta.
  replace ((m - 1) / 12) with 0 by zdiv.
  replace ((m - 1) mod 12) with (m - 1) by zdiv.
  rewrite Z.add_0_r.
  pose proof (month_start_mono (leap y) 0 (m - 1)).
  pose proof (month_start_mono (leap y) m 12).
  rewrite month_start_12 in *. rewrite DaysInYear_cases.
  change (month_start (leap y) 0) with 0 in *. lia.
Qed.

(** Reading the fields back from the day number of a calendar date. *)
Lemma fields_of_MakeDay y m d :
  valid_date y m d ->
  YearFromDay (MakeDay y (m - 1) d) = y
  /\ MonthFromDay (MakeDay y (m - 1) d) = m - 1
  /\ DateFromDay (MakeDay y (m - 1) d) = d.
Proof.
  intros Hv. pose proof Hv as [Hm _].
  destruct (MakeDay_valid y m d Hv) as (-> & Hmo & Hyd).
  assert (YearFromDay (DayFromYear y + (month_start (leap y) (m - 1) + d - 1)) = y)
    as Hy.
  { apply YearFromDay_unique. rewrite DayFromYear_succ. lia. }
  assert (MonthFromDay (DayFromYear y + (month_start (leap y) (m - 1) + d - 1)) = m - 1)
    as Hmon.
  { unfold MonthFromDay, DayWithinYear. rewrite Hy.
    apply month_of_yday_unique; [lia|].
    replace (m - 1 + 1) with m by lia. lia. }
  split; [done|]. split; [done|].
  unfold DateFromDay, DayWithinYear. rewrite Hmon, Hy. lia.
Qed.

(** The fields of a day number form a calendar date and make the
    day number again. *)
Lemma fields_valid n :
  valid_date (YearFromDay n) (MonthFromDay n + 1) (DateFromDay n).
Proof.
  pose proof (DayWithinYear_range n) as Hr. rewrite DaysInYear_cases in Hr.
  destruct (month_of_yday_spec _ _ Hr) as [Hk Hs].
  unfold valid_date, days_in_month, DateFromDay.
  fold (MonthFromDay n) in *.
  replace (MonthFromDay n + 1 - 1) with (MonthFromDay n) by lia. lia.
Qed.

Lemma MakeDay_fields n :
  MakeDay (YearFromDay n) (MonthFromDay n) (DateFromDay n) = n.
Proof.
  pose proof (fields_valid n) as Hv.
  destruct (MakeDay_valid _ _ _ Hv) as (He & _).
  replace (MonthFromDay n + 1 - 1) with (MonthFromDay n) in He by lia.
  rewrite He. unfold DateFromDay, DayWithinYear. lia.
Qed.

(** Calendar order is the order of day numbers. *)
Lemma MakeDay_lt y1 m1 d1 y2 m2 d2 :
  valid_date y1 m1 d1 -> valid_date y2 m2 d2 ->
  civil_lt (y1, m1, d1) (y2, m2, d2) ->
  MakeDay y1 (m1 - 1) d1 < MakeDay y2 (m2 - 1) d2.
Proof.
  intros V1 V2 Hlt. pose proof V1 as [Hm1 Hd1]. pose proof V2 as [Hm2 Hd2].
  destruct (MakeDay_valid _ _ _ V1) as (-> & Ha1 & Hb1).
  destruct (MakeDay_valid _ _ _ V2) as (-> & Ha2 & Hb2).
  destruct Hlt as [Hy | [-> [Hm | [-> Hd]]]].
  - pose proof (DayFromYear_mono (y1 + 1) y2).
    rewrite DayFromYear_succ in *. lia.
  - pose proof (month_start_mono (leap y2) m1 (m2 - 1)). lia.
  - lia.
Qed.

Lemma civil_lt_iff y1 m1 d1 y2 m2 d2 :
  valid_date y1 m1 d1 -> valid_date y2 m2 d2 ->
  civil_lt (y1, m1, d1) (y2, m2, d2)
  <-> MakeDay y1 (m1 - 1) d1 < MakeDay y2 (m2 - 1) d2.
Proof.
  intros V1 V2. split; [by apply MakeDay_lt|]. intros Hlt.
  assert (civil_lt (y1, m1, d1) (y2, m2, d2)
          \/ (y1, m1, d1) = (y2, m2, d2)
          \/ civil_lt (y2, m2, d2) (y1, m1, d1)) as [H | [H | H]].
  { unfold civil_lt.
    destruct (Z.lt_trichotomy y1 y2) as [?|[->|?]]; [lia| |lia].
    destruct (Z.lt_trichotomy m1 m2) as [?|[->|?]]; [lia| |lia].
    destruct (Z.lt_trichotomy d1 d2) as [?|[->|?]]; [lia| |lia].
    by right; left. }
  - done.
  - injection H as -> -> ->. lia.
  - pose proof (MakeDay_lt _ _ _ _ _ _ V2 V1 H). lia.
Qed.

Lemma civil_eq_iff y1 m1 d1 y2 m2 d2 :
  valid_date y1 m1 d1 -> valid_date y2 m2 d2 ->
  (y1, m1, d1) = (y2, m2, d2)
  <-> MakeDay y1 (m1 - 1) d1 = MakeDay y2 (m2 - 1) d2.
Proof.
  intros V1 V2. split; [by intros [= -> -> ->]|]. intros He.
  destruct (fields_of_MakeDay _ _ _ V1) as (Y1 & M1 & D1).
  destruct (fields_of_MakeDay _ _ _ V2) as (Y2 & M2 & D2).
  rewrite He in *. f_equal; [f_equal|]; lia.
Qed.

End Calendar.

(* ================================================================== *)
(** ** Dates built by the pages                                        *)
(* ================================================================== *)

Section PageDates.

Variable c : Clock.
Hypothesis Hc : clock_ok c.

Lemma Day_MakeDate n t :
  0 <= t < msPerDay ->
  Day (MakeDate n t) = n /\ TimeWithinDay (MakeDate n t) = t.
Proof. unfold Day, TimeWithinDay, MakeDate, msPerDay. intros. zdiv. Qed.

Lemma LocalTime_UTC t : LocalTime c (UTC c t) = t.
Proof. unfold LocalTime, UTC. lia. Qed.

Lemma MakeTime_range h mi :
  0 <= h <= 23 -> 0 <= mi <= 59 -> 0 <= MakeTime h mi 0 0 < msPerDay.
Proof. unfold MakeTime, msPerDay. lia. Qed.

Lemma or_default_nonzero z k : z <> 0 -> or_default (Some (Fin z)) k = Fin z.
Proof. intros Hz. unfold or_default, truthy. by destruct z. Qed.

Lemma or_default_zero z : or_default (Some (Fin z)) 0 = Fin z.
Proof. unfold or_default, truthy. by destruct z. Qed.

Lemma reads_date_nonempty ds y m d : reads_date ds y m d -> String.eqb ds "" = false.
Proof. intros [Hp _]. by destruct ds. Qed.

Lemma MakeDay_bounds y m d :
  100 <= y <= 9999 -> valid_date y m d ->
  -684000 <= MakeDay y (m - 1) d <= 2933000.
Proof.
  intros Hy Hv. destruct (MakeDay_valid _ _ _ Hv) as (-> & _ & Hk).
  rewrite DaysInYear_cases in Hk.
  pose proof (DayFromYear_mono 100 y). pose proof (DayFromYear_mono y 9999).
  change (DayFromYear 100) with (-683003) in *.
  change (DayFromYear 9999) with 2932532 in *.
  destruct (leap y); lia.
Qed.

(** The local date-time the pages build from a well-formed date
    string and an hour and minute. *)
Lemma appt_date_wf ds y m d h mi :
  reads_date ds y m d -> 0 <= h <= 23 -> 0 <= mi <= 59 ->
  appt_date c ds (Fin h) (Fin mi)
  = Some (UTC c (MakeDate (MakeDay y (m - 1) d) (MakeTime h mi 0 0))).
Proof.
  intros (Hp & Hy & Hv) Hh Hmi. pose proof Hv as [Hm Hd].
  unfold days_in_month in Hd.
  unfold appt_date. rewrite Hp. cbn [elem lookup list_lookup ToNumber].
  rewrite !or_default_nonzero by lia. cbn [minus1 Date_of_parts integer_part].
  replace ((0 <=? y) && (y <=? 99)) with false by (symmetry; rewrite andb_false_iff; lia).
  unfold TimeClip.
  pose proof (MakeDay_bounds _ _ _ Hy Hv).
  pose proof (MakeTime_range _ _ Hh Hmi).
  destruct Hc as [Hn Hz].
  case_match; [done|]. ltb_prop. unfold UTC, MakeDate, msPerDay in *. lia.
Qed.

Lemma today_year : 1969 <= YearFromDay (Day (LocalTime c (now c))).
Proof.
  destruct Hc as [Hn Hz].
  set (n := Day (LocalTime c (now c))).
  assert (-1 <= n) by (unfold n, Day, LocalTime, msPerDay in *; zdiv).
  pose proof (YearFromDay_spec n) as [_ Hhi].
  destruct (Z_lt_le_dec (YearFromDay n) 1969) as [Hlt|]; [|done].
  pose proof (DayFromYear_mono (YearFromDay n + 1) 1969).
  change (DayFromYear 1969) with (-365) in *. lia.
Qed.

(** Local midnight of today. *)
Lemma today_midnight_eq :
  today_midnight c = Some (UTC c (MakeDate (Day (LocalTime c (now c))) 0)).
Proof.
  unfold today_midnight, Date_now, getFullYear, getMonth, getDate, Date_of_ymd,
    Date_of_parts.
  cbn [integer_part]. pose proof today_year as Hy.
  replace ((0 <=? _) && (_ <=? 99)) with false by (symmetry; rewrite andb_false_iff; lia).
  rewrite MakeDay_fields. change (MakeTime 0 0 0 0) with 0.
  unfold TimeClip. case_match; [done|]. ltb_prop.
  destruct Hc as [Hn Hz].
  unfold UTC, MakeDate, Day, LocalTime, msPerDay in *. zdiv.
Qed.

Lemma fields_of_local n t :
  0 <= t < msPerDay ->
  getFullYear c (Some (UTC c (MakeDate n t))) = Fin (YearFromDay n)
  /\ getMonth c (Some (UTC c (MakeDate n t))) = Fin (MonthFromDay n)
  /\ getDate c (Some (UTC c (MakeDate n t))) = Fin (DateFromDay n).
Proof.
  intros Ht. unfold getFullYear, getMonth, getDate.
  rewrite LocalTime_UTC. by destruct (Day_MakeDate n t Ht) as [-> _].
Qed.

Lemma strict_eq_Fin a b : strict_eq (Fin a) (Fin b) = true <-> a = b.
Proof.
  unfold strict_eq. apply Z.eqb_eq.
Qed.

(** [isToday] on a well-formed date string compares calendar dates. *)
Lemma isToday_iff ds y m d :
  reads_date ds y m d ->
  Appointments.isToday c ds = true <-> (y, m, d) = local_date c.
Proof.
  intros Hr. pose proof Hr as (_ & _ & Hv).
  unfold Appointments.isToday. rewrite (reads_date_nonempty _ _ _ _ Hr).
  rewrite (appt_date_wf _ _ _ _ 0 0 Hr) by lia.
  change (MakeTime 0 0 0 0) with 0.
  assert (0 <= 0 < msPerDay) as H0 by (unfold msPerDay; lia).
  destruct (fields_of_local (MakeDay y (m - 1) d) 0 H0) as (-> & -> & ->).
  destruct (fields_of_MakeDay _ _ _ Hv) as (-> & -> & ->).
  unfold Date_now, getFullYear, getMonth, getDate, local_date.
  rewrite !andb_true_iff, !strict_eq_Fin.
  split.
  - intros [[-> Hmon] ->]. by replace m with (MonthFromDay (Day (LocalTime c (now c))) + 1) by lia.
  - intros [= -> -> ->]. repeat split; lia.
Qed.

Lemma reads_time_given t tm :
  reads_time (Some t) tm -> given (Some t) = Some t.
Proof. intros (h & mi & rest & Hp & _). by destruct t. Qed.

Lemma local_now_split :
  LocalTime c (now c)
  = MakeDate (Day (LocalTime c (now c))) (local_time_of_day c).
Proof.
  unfold local_time_of_day, MakeDate, Day, TimeWithinDay, msPerDay. zdiv.
Qed.

(** Before today's local midnight exactly when the calendar date is
    before today's. *)
Lemma before_today_iff ds y m d :
  reads_date ds y m d ->
  date_lt (appt_date c ds (Fin 0) (Fin 0)) (today_midnight c) = true
  <-> civil_lt (y, m, d) (local_date c).
Proof.
  intros Hr. pose proof Hr as (_ & _ & Hv).
  rewrite (appt_date_wf _ _ _ _ 0 0 Hr) by lia.
  rewrite today_midnight_eq. change (MakeTime 0 0 0 0) with 0.
  unfold local_date.
  rewrite (civil_lt_iff _ _ _ _ _ _ Hv (fields_valid _)).
  replace (MonthFromDay (Day (LocalTime c (now c))) + 1 - 1)
    with (MonthFromDay (Day (LocalTime c (now c)))) by lia.
  rewrite MakeDay_fields. unfold date_lt. rewrite Z.ltb_lt.
  unfold UTC, MakeDate, msPerDay. lia.
Qed.

(** [isPastAppointment] on a well-formed date and time. *)
Lemma isPast_iff ds y m d ot tm :
  reads_date ds y m d -> reads_time ot tm ->
  Appointments.isPastAppointment c ds ot = true
  <-> civil_lt (y, m, d) (local_date c)
      \/ ((y, m, d) = local_date c
          /\ exists h mi, tm = Some (h, mi)
               /\ MakeTime h mi 0 0 < local_time_of_day c).
Proof.
  intros Hr Ht. pose proof Hr as (_ & _ & Hv).
  unfold Appointments.isPastAppointment.
  rewrite (reads_date_nonempty _ _ _ _ Hr).
  pose proof (before_today_iff _ _ _ _ Hr) as Hbefore.
  pose proof (isToday_iff _ _ _ _ Hr) as Htoday.
  destruct (date_lt _ (today_midnight c)) eqn:E.
  { split; [intros _; left; by apply Hbefore | done]. }
  assert (~ civil_lt (y, m, d) (local_date c)) as Hnlt.
  { intros H. apply Hbefore in H. done. }
  destruct (Appointments.isToday c ds) eqn:Et.
  2:{ split; [done|]. intros [H | [H _]]; [done|].
      apply Htoday in H. done. }
  assert ((y, m, d) = local_date c) as Heq by by apply Htoday.
  destruct ot as [t|]; cbn [reads_time] in Ht.
  2:{ subst tm. cbn. split; [done|]. intros [H | (_ & h & mi & ? & _)]; done. }
  rewrite (reads_time_given _ _ Ht).
  destruct Ht as (h & mi & rest & Hp & Hh & Hmi & ->).
  unfold appt_date_time. rewrite Hp. cbn [elem lookup list_lookup].
  rewrite !or_default_zero.
  rewrite (appt_date_wf _ _ _ _ h mi Hr Hh Hmi).
  unfold Date_now, date_lt. rewrite Z.ltb_lt.
  assert (MakeDay y (m - 1) d = Day (LocalTime c (now c))) as ->.
  { unfold local_date in Heq. injection Heq as -> -> ->.
    replace (MonthFromDay (Day (LocalTime c (now c))) + 1 - 1)
      with (MonthFromDay (Day (LocalTime c (now c)))) by lia.
    apply MakeDay_fields. }
  pose proof local_now_split as Hs.
  split.
  - intros Hlt. right. split; [done|]. exists h, mi. split; [done|].
    unfold UTC, LocalTime, MakeDate in *. lia.
  - intros [H | (_ & h' & mi' & [= <- <-] & Hlt)]; [done|].
    unfold UTC, LocalTime, MakeDate in *. lia.
Qed.

(** A date before today is past whatever the time argument is. *)
Lemma isPast_before ds y m d ot :
  reads_date ds y m d -> civil_lt (y, m, d) (local_date c) ->
  Appointments.isPastAppointment c ds ot = true.
Proof.
  intros Hr Hlt. unfold Appointments.isPastAppointment.
  rewrite (reads_date_nonempty _ _ _ _ Hr).
  apply (before_today_iff _ _ _ _ Hr) in Hlt. by rewrite Hlt.
Qed.

End PageDates.

(* ================================================================== *)
(** ** The queue-status loop of [fetchAppointments]                    *)
(* ================================================================== *)

Section QueueLoop.

Variable srv : Backend.

Abbreviation loop := (foldl (Appointments.fetch_one srv)).

(** An id no fulfilled request of the loop carries keeps the entry
    (or the absence of one) it had before the loop. *)
Lemma loop_untouched (l : list Appointment) acc k :
  (forall a q, a ∈ l -> id a = k ->
               getQueuePosition srv k <> Fulfilled q) ->
  (loop acc l).1 !! k = acc.1 !! k.
Proof.
  revert acc. induction l as [|a l IH]; intros acc Hk; [done|].
  cbn [foldl]. rewrite IH.
  - unfold Appointments.fetch_one.
    destruct (getQueuePosition srv (id a)) eqn:E; [|done].
    cbn. destruct (decide (id a = k)) as [Heq|Hne].
    + exfalso. apply (Hk a data); [apply elem_of_cons; by left|done|].
      by rewrite <- Heq.
    + by rewrite lookup_insert_ne.
  - intros a' q Ha'. apply Hk. apply elem_of_cons. by right.
Qed.

(** An entry holding the answer of the backend for its id stays. *)
Lemma loop_keeps (l : list Appointment) acc k q :
  getQueuePosition srv k = Fulfilled q ->
  acc.1 !! k = Some q -> (loop acc l).1 !! k = Some q.
Proof.
  intros Hq. revert acc. induction l as [|a l IH]; intros acc Hacc; [done|].
  cbn [foldl]. apply IH. unfold Appointments.fetch_one.
  destruct (getQueuePosition srv (id a)) eqn:E; [|done].
  cbn. destruct (decide (id a = k)) as [Heq|Hne].
  - rewrite Heq in *. rewrite lookup_insert_eq. congruence.
  - by rewrite lookup_insert_ne.
Qed.

(** A fulfilled request puts its answer under the id. *)
Lemma loop_fulfilled (l : list Appointment) acc a q :
  a ∈ l -> getQueuePosition srv (id a) = Fulfilled q ->
  (loop acc l).1 !! id a = Some q.
Proof.
  revert acc. induction l as [|b l IH]; intros acc Hin Hq.
  - by apply elem_of_nil in Hin.
  - cbn [foldl]. apply elem_of_cons in Hin as [<- | Hin]; [|by apply IH].
    apply loop_keeps; [done|]. unfold Appointments.fetch_one.
    rewrite Hq. cbn. apply lookup_insert_eq.
Qed.

(** Every appointment of the loop is requested, whatever happened to
    the ones before it. *)
Lemma loop_requests (l : list Appointment) acc a :
  a ∈ l -> Sent (GET_queue_position (id a)) ∈ (loop acc l).2.
Proof.
  assert (forall l' acc' e, e ∈ acc'.2 -> e ∈ (loop acc' l').2) as Hmono.
  { induction l' as [|b l' IH]; intros acc' e He; [done|].
    cbn [foldl]. apply IH. unfold Appointments.fetch_one.
    destruct (getQueuePosition srv (id b)); cbn; apply elem_of_app; by left. }
  revert acc. induction l as [|b l IH]; intros acc Hin.
  - by apply elem_of_nil in Hin.
  - cbn [foldl]. apply elem_of_cons in Hin as [<- | Hin]; [|by apply IH].
    apply Hmono. unfold Appointments.fetch_one.
    destruct (getQueuePosition srv (id a)); cbn; apply elem_of_app; right;
      apply elem_of_cons; by left.
Qed.

(** The loop raises no toast. *)
Lemma loop_no_toast (l : list Appointment) acc e :
  e ∈ (loop acc l).2 -> is_toast_error e -> e ∈ acc.2.
Proof.
  revert acc. induction l as [|b l IH]; intros acc He Ht; [done|].
  cbn [foldl] in He. apply IH in He; [|done].
  unfold Appointments.fetch_one in He.
  destruct (getQueuePosition srv (id b)); cbn in He;
    apply elem_of_app in He as [He | He]; try done;
    repeat (apply elem_of_cons in He as [-> | He]; [destruct Ht|]);
    by apply elem_of_nil in He.
Qed.

(** The loop merges into the map it starts from: its result is what
    it yields from the empty map, laid over the starting map. *)
Lemma loop_union (l : list Appointment) (m : gmap Z QueueStatus) lg lg' :
  (loop (m, lg) l).1 = (loop (∅, lg') l).1 ∪ m.
Proof.
  revert m lg lg'. induction l as [|a l IH]; intros m lg lg'.
  - cbn. by rewrite (left_id_L ∅ (∪)).
  - cbn [foldl]. unfold Appointments.fetch_one at 2 4.
    destruct (getQueuePosition srv (id a)) eqn:E; cbn.
    + rewrite (IH (<[id a:=data]> m) _ []).
      rewrite (IH (<[id a:=data]> ∅) _ []).
      rewrite (insert_union_singleton_l m), insert_empty.
      apply map_union_assoc.
    + apply IH.
Qed.

End QueueLoop.

(* ================================================================== *)
(** ** [fetchAppointments]                                             *)
(* ================================================================== *)

Section FetchAppointments.

Variable srv : Backend.
Variable data : list Appointment.
Hypothesis Hlist : getMyAppointments srv = Fulfilled data.

(** The pass, once the list has arrived, is the loop over the active
    appointments, started from the map of the previous state. *)
Lemma fetchAppointments_loop st :
  queueStatus_of (Appointments.fetchAppointments srv st)
  = (foldl (Appointments.fetch_one srv)
       (Appointments.queueStatus st, [Sent GET_appointments_my])
       (filter (λ apt, Appointments.active apt = true) data)).1
  /\ (Appointments.fetchAppointments srv st).2
     = (foldl (Appointments.fetch_one srv)
          (Appointments.queueStatus st, [Sent GET_appointments_my])
          (filter (λ apt, Appointments.active apt = true) data)).2.
Proof.
  unfold queueStatus_of, Appointments.fetchAppointments. rewrite Hlist.
  by destruct (foldl _ _ _).
Qed.

(** Only active appointments are ever written: an id that no active
    appointment of the list carries keeps what it had. *)
Lemma fetchAppointments_only_active st k :
  (forall a, a ∈ data -> id a = k -> Appointments.active a = false) ->
  queueStatus_of (Appointments.fetchAppointments srv st) !! k
  = Appointments.queueStatus st !! k.
Proof.
  intros Hk. destruct (fetchAppointments_loop st) as [-> _].
  rewrite loop_untouched; [done|].
  intros a q Ha Hid. apply list_elem_of_filter in Ha as [Hact Ha].
  rewrite (Hk a Ha Hid) in Hact. done.
Qed.

(** The map after a pass is what the pass yields from the empty map,
    laid over the map before the pass: earlier entries are merged in,
    not replaced. *)
Lemma fetchAppointments_union st :
  queueStatus_of (Appointments.fetchAppointments srv st)
  = queueStatus_of (Appointments.fetchAppointments srv Appointments.initial)
    ∪ Appointments.queueStatus st.
Proof.
  destruct (fetchAppointments_loop st) as [-> _].
  destruct (fetchAppointments_loop Appointments.initial) as [-> _].
  apply loop_union.
Qed.

End FetchAppointments.

(* ================================================================== *)
(** ** Queue-status reconciliation                                     *)
(* ================================================================== *)

(** C1.  The claim: an appointment that is not confirmed or in
    progress, or that is not dated today, never gets its id added to
    the queue-status map.  [fetchAppointments] of Appointments.tsx and
    Dashboard.tsx filters on the status alone
    ([fetchAppointments_only_active] is the half that holds); it never
    calls [isToday].  On 10 March 2025 an appointment dated 9 March
    that is still confirmed is requested and its answer stored under
    its id.  The queue view ([MyQueue.fetchQueueData]) does check the
    date: for the same list it sends no position request. *)
Theorem fetchAppointments_adds_other_day :
  let a := appt 7 "2025-03-09" "09:00:00" "confirmed" in
  let srv := backend [a] (λ _, Fulfilled q2) in
  Appointments.isToday clk (appointment_date a) = false
  /\ queueStatus_of (Appointments.fetchAppointments srv Appointments.initial)
       !! 7 = Some q2
  /\ (Appointments.fetchAppointments srv Appointments.initial).2
     = [Sent GET_appointments_my; Sent (GET_queue_position 7)]
  /\ MyQueue.fetchQueueData clk srv MyQueue.initial
     = ({| MyQueue.queueData :=
             [{| MyQueue.appointment := a; MyQueue.queueInfo := None |}];
           MyQueue.loading := false; MyQueue.refreshing := false |},
        [Sent GET_appointments_my]).
Proof. vm_compute. done. Qed.

(** C2.  The claim: after a pass the map is exactly what that pass
    produced; nothing of an earlier pass survives, and an id whose
    fetch failed in the latest pass is absent.  The loop writes with
    [setQueueStatus(prev => ({...prev, [id]: data}))] and nothing
    empties the map between passes ([fetchAppointments_union]).  A
    first pass stores the position of appointment 7.  A second pass in
    which 7 is cancelled, or one in which its request is rejected,
    leaves that entry in place, although either pass run from the
    empty map yields no entry for 7. *)
Theorem fetchAppointments_keeps_earlier_entry :
  let first := backend [appt 7 "2025-03-10" "09:00:00" "confirmed"]
                       (λ _, Fulfilled q2) in
  let cancelled := backend [appt 7 "2025-03-10" "09:00:00" "cancelled"]
                           (λ _, Fulfilled q2) in
  let failing := backend [appt 7 "2025-03-10" "09:00:00" "confirmed"]
                         (λ _, Rejected no_response) in
  let st1 := (Appointments.fetchAppointments first Appointments.initial).1 in
  Appointments.queueStatus st1 !! 7 = Some q2
  /\ queueStatus_of (Appointments.fetchAppointments cancelled st1) !! 7
     = Some q2
  /\ queueStatus_of (Appointments.fetchAppointments failing st1) !! 7
     = Some q2
  /\ queueStatus_of
       (Appointments.fetchAppointments cancelled Appointments.initial) !! 7
     = None
  /\ queueStatus_of
       (Appointments.fetchAppointments failing Appointments.initial) !! 7
     = None.
Proof. vm_compute. done. Qed.

(** C3, the claim as stated, fails in the queue view.  The scenario of
    the specification: A (09:00) and B (09:30), both confirmed and
    dated today; the position request of A is rejected, that of B
    answered with position 2 and a wait of 10 minutes.
    [MyQueue.fetchQueueData] keeps A in its result, with [queueInfo]
    null. *)
Lemma myqueue_stores_null_for_failed_fetch :
  let A := appt 1 "2025-03-10" "09:00" "confirmed" in
  let B := appt 2 "2025-03-10" "09:30" "confirmed" in
  let srv := backend [A; B]
               (λ i, if i =? 2 then Fulfilled q2 else Rejected no_response) in
  let st' := (MyQueue.fetchQueueData clk srv MyQueue.initial).1 in
  getQueuePosition srv (id A) = Rejected no_response
  /\ MyQueue.queueData st'
     = [{| MyQueue.appointment := A; MyQueue.queueInfo := None |};
        {| MyQueue.appointment := B; MyQueue.queueInfo := Some q2 |}]
  /\ id A ∈ queue_ids st'.
Proof.
  vm_compute. split; [done|]. split; [done|]. apply elem_of_cons. by left.
Qed.

Section QueueView.

Variable c : Clock.
Variable srv : Backend.
Variable data : list Appointment.
Hypothesis Hlist : getMyAppointments srv = Fulfilled data.

Lemma fetchQueueData_list st :
  MyQueue.fetchQueueData c srv st
  = (let rs := map (MyQueue.queue_item c srv)
                   (filter (λ apt, MyQueue.active apt = true) data) in
     ({| MyQueue.queueData := map fst rs;
         MyQueue.loading := false; MyQueue.refreshing := false |},
      Sent GET_appointments_my :: List.concat (map snd rs))).
Proof. unfold MyQueue.fetchQueueData. by rewrite Hlist. Qed.

(** Every active appointment keeps its place in the queue view, with
    the record its own callback resolved to. *)
Lemma fetchQueueData_item st a :
  a ∈ data -> MyQueue.active a = true ->
  (MyQueue.queue_item c srv a).1
    ∈ MyQueue.queueData (MyQueue.fetchQueueData c srv st).1
  /\ forall e, e ∈ (MyQueue.queue_item c srv a).2 ->
               e ∈ (MyQueue.fetchQueueData c srv st).2.
Proof.
  intros Ha Hact. rewrite fetchQueueData_list. cbn.
  assert (a ∈ filter (λ apt, MyQueue.active apt = true) data) as Hf
    by by apply list_elem_of_filter.
  split.
  - rewrite map_map. apply list_elem_of_In, in_map_iff. exists a.
    split; [done|]. by apply list_elem_of_In.
  - intros e He. apply elem_of_cons. right.
    apply list_elem_of_In, in_concat. exists (MyQueue.queue_item c srv a).2.
    split; [|by apply list_elem_of_In].
    rewrite map_map. apply in_map_iff. exists a.
    split; [done|]. by apply list_elem_of_In.
Qed.

(** The queue view raises no toast once the list has arrived. *)
Lemma fetchQueueData_no_toast st e :
  e ∈ (MyQueue.fetchQueueData c srv st).2 -> ~ is_toast_error e.
Proof.
  rewrite fetchQueueData_list. cbn. intros He Ht.
  apply elem_of_cons in He as [-> | He]; [done|].
  apply list_elem_of_In, in_concat in He as (lg & Hlg & He).
  rewrite map_map in Hlg. apply in_map_iff in Hlg as (a & <- & _).
  unfold MyQueue.queue_item in He.
  destruct (negb _); [done|].
  destruct (getQueuePosition srv (id a)); cbn in He;
    destruct He as [<- | []]; done.
Qed.

End QueueView.

(** C3 (as amended).  Within one pass, once the list has arrived:

    - in [fetchAppointments] (Appointments.tsx, Dashboard.tsx) every
      active appointment is requested; a fulfilled request leaves its
      answer under the id; a rejected one writes nothing, so the id is
      absent whenever it was absent before the pass (as on the first
      pass); no toast is raised;
    - in [MyQueue.fetchQueueData] every active appointment dated today
      is requested; a fulfilled request leaves the appointment in the
      list with its answer; a rejected one leaves the appointment in
      the list with [queueInfo] null; no toast is raised. *)
Theorem pass_isolates_failures (c : Clock) (srv : Backend)
    (data : list Appointment) (a : Appointment) :
  getMyAppointments srv = Fulfilled data ->
  a ∈ data ->
  (Appointments.active a = true ->
   forall st,
     let r := Appointments.fetchAppointments srv st in
     Sent (GET_queue_position (id a)) ∈ r.2
     /\ (forall q, getQueuePosition srv (id a) = Fulfilled q ->
                   queueStatus_of r !! id a = Some q)
     /\ (forall e, getQueuePosition srv (id a) = Rejected e ->
                   Appointments.queueStatus st !! id a = None ->
                   queueStatus_of r !! id a = None)
     /\ (forall e, e ∈ r.2 -> ~ is_toast_error e))
  /\ (MyQueue.active a = true ->
      MyQueue.isToday c (appointment_date a) = true ->
      forall st,
        let r := MyQueue.fetchQueueData c srv st in
        Sent (GET_queue_position (id a)) ∈ r.2
        /\ (forall q, getQueuePosition srv (id a) = Fulfilled q ->
              {| MyQueue.appointment := a; MyQueue.queueInfo := Some q |}
                ∈ MyQueue.queueData r.1)
        /\ (forall e, getQueuePosition srv (id a) = Rejected e ->
              {| MyQueue.appointment := a; MyQueue.queueInfo := None |}
                ∈ MyQueue.queueData r.1)
        /\ (forall e, e ∈ r.2 -> ~ is_toast_error e)).
Proof.
  intros Hlist Ha. split.
  - intros Hact st r.
    destruct (fetchAppointments_loop srv data Hlist st) as [Hq Hl].
    assert (a ∈ filter (λ apt, Appointments.active apt = true) data) as Hf
      by by apply list_elem_of_filter.
    subst r. rewrite Hq, Hl. repeat split.
    + by apply loop_requests.
    + intros q Hok. by apply loop_fulfilled.
    + intros e Hrej Hnone. rewrite loop_untouched; [done|].
      intros a' q _ Hid. rewrite Hrej. done.
    + intros e He Ht. apply loop_no_toast in He; [|done]. cbn in He.
      apply list_elem_of_singleton in He as ->. done.
  - intros Hact Htoday st r.
    destruct (fetchQueueData_item c srv data Hlist st a Ha Hact) as [Hitem Hlog].
    unfold MyQueue.queue_item in Hitem, Hlog. rewrite Htoday in Hitem, Hlog.
    cbn [negb] in Hitem, Hlog. subst r. repeat split.
    + apply Hlog. destruct (getQueuePosition srv (id a)); apply elem_of_cons; by left.
    + intros q Hok. by rewrite Hok in Hitem.
    + intros e Hrej. by rewrite Hrej in Hitem.
    + intros e. by apply fetchQueueData_no_toast with (data := data).
Qed.

Lemma pass_isolates_failures_witness :
  let A := appt 1 "2025-03-10" "09:00" "confirmed" in
  let B := appt 2 "2025-03-10" "09:30" "confirmed" in
  let srv := backend [A; B]
               (λ i, if i =? 2 then Fulfilled q2 else Rejected no_response) in
  let r := Appointments.fetchAppointments srv Appointments.initial in
  getMyAppointments srv = Fulfilled [A; B]
  /\ A ∈ [A; B]
  /\ Appointments.active A = true
  /\ Sent (GET_queue_position (id A)) ∈ r.2
  /\ queueStatus_of r !! id A = None.
Proof.
  intros A B srv r.
  assert (A ∈ [A; B]) as Hin by (apply elem_of_cons; by left).
  split; [reflexivity|]. split; [exact Hin|]. split; [reflexivity|].
  destruct (pass_isolates_failures clk srv [A; B] A eq_refl Hin) as [Hp _].
  destruct (Hp eq_refl Appointments.initial) as (Hreq & _ & Hrej & _).
  split; [exact Hreq|].
  exact (Hrej no_response eq_refl eq_refl).
Defined.

(* ================================================================== *)
(** ** Check-in and cancel handlers                                    *)
(* ================================================================== *)

(** [handleCheckIn] of Appointments.tsx and Dashboard.tsx turns an
    ineligible appointment away before any request: the state is
    untouched and the trace is a single toast. *)
Lemma handleCheckIn_rejects c srv st i a :
  find (λ apt, id apt =? i) (Appointments.appointments st) = Some a ->
  Appointments.canCheckIn c a = false ->
  (Appointments.handleCheckIn c srv st i).1 = st
  /\ exists text, (Appointments.handleCheckIn c srv st i).2
                  = [ToastError (JString text)].
Proof.
  intros Hfind Hcan. unfold Appointments.handleCheckIn.
  rewrite Hfind, Hcan. cbn [negb].
  repeat case_match; (split; [done|]); eexists; done.
Qed.

(** C7.  The claim: a check-in attempted on an appointment for which
    [canCheckIn] is false is turned away in the client and
    [POST /queue/checkin/{id}] is never sent.  The handlers of
    Appointments.tsx and Dashboard.tsx do so ([handleCheckIn_rejects]);
    [MyQueue.handleCheckIn] has no guard, it only relies on the button
    having been rendered.  For a scheduled appointment dated yesterday
    (9 March 2025 seen on the 10th) [canCheckIn] is false, the card
    shows no button, and the handler still sends the request first
    thing. *)
Theorem myqueue_handleCheckIn_posts_for_yesterday :
  let a := appt 7 "2025-03-09" "09:00:00" "scheduled" in
  let srv := backend [a] (λ _, Rejected no_response) in
  let st := {| MyQueue.queueData :=
                 [{| MyQueue.appointment := a; MyQueue.queueInfo := None |}];
               MyQueue.loading := false; MyQueue.refreshing := false |} in
  Appointments.canCheckIn clk a = false
  /\ MyQueue.checkInButton clk a = false
  /\ (MyQueue.handleCheckIn clk srv st 7).2
     = [Sent (POST_queue_checkin 7); ToastSuccess "Checked in successfully!";
        Sent GET_appointments_my]
  /\ (Appointments.handleCheckIn clk srv
        {| Appointments.appointments := [a]; Appointments.queueStatus := ∅;
           Appointments.loading := false;
           Appointments.cancelDialogOpen := false;
           Appointments.appointmentToCancel := None |} 7).2
     = [ToastError (JString "You can only check in on the appointment date")].
Proof. vm_compute. done. Qed.

(** C8.  The claim: when cancel or check-in fails with a structured
    payload, the message shown is one display string, whatever the
    shape of [detail] (a string kept, a list joined, an object reduced
    to its message).  Only [handleSubmit] of BookAppointment.tsx
    normalises ([BookAppointment.message]).  [handleCheckIn] hands a
    truthy [detail] to [toast.error] as it is: for a list of field
    errors the toast content is the list, not a string.
    [handleCancelAppointment] never reads the payload: a string
    [detail] is replaced by the fixed text. *)
Theorem handlers_do_not_normalise_detail :
  let a := appt 7 "2025-03-10" "15:00:00" "scheduled" in
  let st := {| Appointments.appointments := [a]; Appointments.queueStatus := ∅;
               Appointments.loading := false;
               Appointments.cancelDialogOpen := true;
               Appointments.appointmentToCancel := Some a |} in
  let field_errors :=
    JArray [JObject [("loc", JArray [JString "path"; JString "appointment_id"]);
                     ("msg", JString "value is not a valid integer")]] in
  let unprocessable :=
    {| response_status := Some 422; response_detail := Some field_errors |} in
  let refused :=
    {| response_status := Some 400;
       response_detail := Some (JString "Cannot cancel this appointment") |} in
  Appointments.canCheckIn clk a = true
  /\ (Appointments.handleCheckIn clk (refusing unprocessable) st 7).2
     = [Sent (POST_queue_checkin 7); ConsoleError "Check-in error:";
        ToastError field_errors]
  /\ ~ shows_text (ToastError field_errors)
  /\ (Appointments.handleCancelAppointment (refusing refused) st).2
     = [Sent (PUT_appointments_cancel 7);
        ToastError (JString "Failed to cancel appointment");
        ConsoleError "Error cancelling appointment:"]
  /\ (forall stringify tostring,
        BookAppointment.message stringify tostring (Some field_errors)
        = JString "value is not a valid integer")
  /\ (forall stringify tostring,
        BookAppointment.message stringify tostring
          (Some (JString "Cannot cancel this appointment"))
        = JString "Cannot cancel this appointment").
Proof. vm_compute. repeat split; auto. Qed.

(* ================================================================== *)
(** ** The response interceptor                                        *)
(* ================================================================== *)

(** C10.  A rejected response with status 401 removes the stored token
    and points the browser at [/login] by the time the rejection is
    handed back; the other stored items are kept.  With any other
    status, or no response at all, the browser state is left as it was.
    In both cases the caller gets the same error, rejected; a fulfilled
    response passes through unchanged. *)
Theorem response_interceptor {A : Type} (error : AxiosError) (b : Api.Browser)
    (response : A) :
  let r := Api.on_rejected (A := A) error b in
  r.2 = Rejected error
  /\ (response_status error = Some 401 ->
      Api.localStorage r.1 !! "token" = None
      /\ Api.location_href r.1 = "/login"
      /\ forall k, k <> "token" ->
                   Api.localStorage r.1 !! k = Api.localStorage b !! k)
  /\ (response_status error <> Some 401 -> r.1 = b)
  /\ Api.on_fulfilled response = response.
Proof.
  unfold Api.on_rejected. cbv zeta. case_bool_decide as Hs; cbn.
  - split; [done|]. split; [|done]. intros _.
    split; [apply lookup_delete_eq|]. split; [done|].
    intros k Hk. by apply lookup_delete_ne.
  - done.
Qed.

Lemma response_interceptor_witness :
  let expired := {| response_status := Some 401; response_detail := None |} in
  let b := {| Api.localStorage := {[ "token" := "abc"; "theme" := "dark" ]};
              Api.location_href := "/appointments" |} in
  let r := Api.on_rejected (A := unit) expired b in
  response_status expired = Some 401
  /\ Api.localStorage r.1 !! "token" = None
  /\ Api.location_href r.1 = "/login"
  /\ Api.localStorage r.1 !! "theme" = Some "dark".
Proof.
  intros expired b r.
  destruct (response_interceptor (A := unit) expired b tt) as (_ & H401 & _).
  destruct (H401 eq_refl) as (Htok & Hhref & Hrest).
  split; [reflexivity|]. split; [exact Htok|]. split; [exact Hhref|].
  subst r. rewrite Hrest; [reflexivity|discriminate].
Defined.

(* ================================================================== *)
(** ** Eligibility                                                     *)
(* ================================================================== *)

(** C5.  At a fixed clock, [canCheckIn] holds exactly when the status
    is [scheduled], the date is today ([isToday]) and the appointment
    is not past ([isPastAppointment] on its date and time); any other
    status makes it false, whatever the date and time. *)
Theorem canCheckIn_iff (c : Clock) (a : Appointment) :
  (Appointments.canCheckIn c a = true
   <-> status a = "scheduled"
       /\ Appointments.isToday c (appointment_date a) = true
       /\ Appointments.isPastAppointment c (appointment_date a)
            (Some (scheduled_time a)) = false)
  /\ (status a <> "scheduled" -> Appointments.canCheckIn c a = false).
Proof.
  unfold Appointments.canCheckIn. split.
  - rewrite !andb_true_iff, negb_true_iff, String.eqb_eq. tauto.
  - intros Hs. apply String.eqb_neq in Hs. by rewrite Hs.
Qed.

Lemma canCheckIn_iff_witness :
  let a := appt 7 "2025-03-10" "15:00:00" "confirmed" in
  status a <> "scheduled" /\ Appointments.canCheckIn clk a = false.
Proof.
  intros a. assert (status a <> "scheduled") as Hs by discriminate.
  split; [exact Hs|]. exact (proj2 (canCheckIn_iff clk a) Hs).
Defined.

(** C6, the claim as stated, fails on a time with seconds: on 10 March
    2025 at 14:30:20 an appointment of that day at 14:30:45 is still
    ahead, yet [isPastAppointment] reads hours and minutes only and
    answers true. *)
Lemma isPast_ignores_seconds :
  map Number (split "-" "2025-03-10") = [Fin 2025; Fin 3; Fin 10]
  /\ map Number (split ":" "14:30:45") = [Fin 14; Fin 30; Fin 45]
  /\ Appointments.isPastAppointment clk "2025-03-10" (Some "14:30:45") = true
  /\ ~ isPast_as_claimed clk (2025, 3, 10) (Some (14, 30, 45)).
Proof.
  split; [reflexivity|]. split; [reflexivity|]. split; [reflexivity|].
  unfold isPast_as_claimed.
  change (local_date clk) with (2025, 3, 10).
  change (local_time_of_day clk) with 52220000.
  intros [Hlt | (_ & h & mi & s & [= <- <- <-] & Hlt)].
  - unfold civil_lt in Hlt. lia.
  - unfold MakeTime in Hlt. lia.
Qed.

(** C6 (as amended).  For a clock from 1970 on, a well-formed date
    string (a calendar date with a four-digit year from 0100 on) and
    either no time or a well-formed one, [isPastAppointment] is true
    exactly when the date is before today's local date, or it is
    today's, a time is given and its hour and minute (seconds are not
    read) lie before the local time of day.  In particular
    [isPastAppointment "2020-01-01" t] is true for every time argument
    once the local date is after 1 January 2020. *)
Theorem isPastAppointment_by_minutes (c : Clock) (dateString : string)
    (y m d : Z) (timeString : option string) (tm : option (Z * Z)) :
  clock_ok c ->
  reads_date dateString y m d ->
  reads_time timeString tm ->
  (Appointments.isPastAppointment c dateString timeString = true
   <-> civil_lt (y, m, d) (local_date c)
       \/ ((y, m, d) = local_date c
           /\ exists h mi, tm = Some (h, mi)
                /\ MakeTime h mi 0 0 < local_time_of_day c))
  /\ (civil_lt (2020, 1, 1) (local_date c) ->
      forall t, Appointments.isPastAppointment c "2020-01-01" t = true).
Proof.
  intros Hc Hd Ht. split; [by apply isPast_iff|].
  intros Hlt t. apply (isPast_before c Hc "2020-01-01" 2020 1 1); [|done].
  split; [reflexivity|]. split; [lia|]. by vm_compute.
Qed.

Lemma clk_ok : clock_ok clk.
Proof. unfold clock_ok, clk, msPerDay. cbn. lia. Defined.

Lemma isPastAppointment_by_minutes_witness :
  clock_ok clk
  /\ reads_date "2025-03-10" 2025 3 10
  /\ reads_time (Some "14:30:00") (Some (14, 30))
  /\ Appointments.isPastAppointment clk "2025-03-10" (Some "14:30:00") = true
  /\ Appointments.isPastAppointment clk "2020-01-01" None = true.
Proof.
  assert (reads_date "2025-03-10" 2025 3 10) as Hd.
  { split; [reflexivity|]. split; [lia|]. vm_compute. intuition discriminate. }
  assert (reads_time (Some "14:30:00") (Some (14, 30))) as Ht.
  { exists 14, 30, [Fin 0]. split; [reflexivity|]. split; [lia|]. split; [lia|].
    reflexivity. }
  destruct (isPastAppointment_by_minutes clk "2025-03-10" 2025 3 10
              (Some "14:30:00") (Some (14, 30)) clk_ok Hd Ht) as [Hiff H2020].
  split; [exact clk_ok|]. split; [exact Hd|]. split; [exact Ht|]. split.
  - apply Hiff. right. split; [reflexivity|]. exists 14, 30.
    split; [reflexivity|]. vm_compute. reflexivity.
  - apply H2020. change (local_date clk) with (2025, 3, 10).
    unfold civil_lt. lia.
Defined.

(** C9, the claim as stated, fails on date strings that are not
    [YYYY-MM-DD] but start with a number: missing or non-numeric month
    and day are read as 1, and components after the third are dropped.
    ["2020"] is read as 1 January 2020 and is past; on 10 March 2025
    ["2025-03-10-zz"] is today, and a scheduled appointment carrying it
    can be checked in. *)
Lemma lenient_dates_are_accepted :
  (forall y m d, ~ reads_date "2020" y m d)
  /\ (forall y m d, ~ reads_date "2025-03-10-zz" y m d)
  /\ Appointments.isPastAppointment clk "2020" None = true
  /\ Appointments.isToday clk "2025-03-10-zz" = true
  /\ MyQueue.isToday clk "2025-03-10-zz" = true
  /\ Appointments.canCheckIn clk
       (appt 7 "2025-03-10-zz" "15:00:00" "scheduled") = true.
Proof.
  split; [by intros y m d [? _]|]. split; [by intros y m d [? _]|].
  by vm_compute.
Qed.

Section Unreadable.

Variable c : Clock.

Lemma appt_date_unreadable ds h mi :
  finite (year_component ds) = false -> appt_date c ds h mi = None.
Proof.
  unfold year_component, appt_date. intros Hy.
  by destruct (ToNumber _).
Qed.

Lemma isToday_unreadable ds :
  finite (year_component ds) = false ->
  Appointments.isToday c ds = false /\ MyQueue.isToday c ds = false.
Proof.
  intros Hy. unfold Appointments.isToday, MyQueue.isToday.
  rewrite (appt_date_unreadable _ _ _ Hy). cbn. by destruct (String.eqb ds "").
Qed.

Lemma isPast_unreadable ds t :
  finite (year_component ds) = false ->
  Appointments.isPastAppointment c ds t = false.
Proof.
  intros Hy. unfold Appointments.isPastAppointment.
  destruct (isToday_unreadable ds Hy) as [-> _].
  rewrite (appt_date_unreadable _ _ _ Hy). cbn. by destruct (String.eqb ds "").
Qed.

(** In the queue view the empty string is not turned away: it is read
    as 1 January 1900, which is not today for a clock from 1970 on. *)
Lemma myqueue_isToday_empty : clock_ok c -> MyQueue.isToday c "" = false.
Proof.
  intros Hc. pose proof (today_year c Hc) as Hy. destruct Hc as [Hn Hz].
  unfold MyQueue.isToday, appt_date.
  cbn [split map elem lookup list_lookup ToNumber or_default minus1].
  change (Number "") with (Fin 0). cbn [Date_of_parts ToNumber integer_part].
  change (MakeDay _ _ _) with (-25567). change (MakeTime 0 0 0 0) with 0.
  unfold TimeClip. case_match; ltb_prop.
  2:{ unfold UTC, MakeDate, msPerDay in *. lia. }
  assert (0 <= 0 < msPerDay) as H0 by (unfold msPerDay; lia).
  destruct (fields_of_local c (-25567) 0 H0) as (-> & _ & _).
  change (YearFromDay (-25567)) with 1900.
  unfold Date_now, getFullYear.
  destruct (strict_eq (Fin 1900) _) eqn:E; [|done].
  apply strict_eq_Fin in E. lia.
Qed.

End Unreadable.

(** C9 (as amended).  [isToday] and [isPastAppointment] are total on
    strings (nothing they call can throw, the [catch] branches are
    never taken).  They answer false on the empty date string and on
    every date string whose year component does not read as a finite
    number, whatever the time string; so does [MyQueue.isToday], for a
    clock from 1970 on. *)
Theorem unreadable_dates_are_refused (c : Clock) (dateString : string)
    (timeString : option string) :
  clock_ok c ->
  dateString = "" \/ finite (year_component dateString) = false ->
  Appointments.isToday c dateString = false
  /\ Appointments.isPastAppointment c dateString timeString = false
  /\ MyQueue.isToday c dateString = false.
Proof.
  intros Hc [-> | Hy].
  - split; [done|]. split; [done|]. by apply myqueue_isToday_empty.
  - destruct (isToday_unreadable c _ Hy) as [H1 H2].
    split; [done|]. split; [by apply isPast_unreadable|done].
Qed.

Lemma unreadable_dates_are_refused_witness :
  clock_ok clk
  /\ finite (year_component "tomorrow") = false
  /\ Appointments.isToday clk "tomorrow" = false
  /\ Appointments.isPastAppointment clk "tomorrow" (Some "09:00") = false
  /\ MyQueue.isToday clk "" = false.
Proof.
  split; [exact clk_ok|]. split; [reflexivity|].
  destruct (unreadable_dates_are_refused clk "tomorrow" (Some "09:00") clk_ok
              (or_intror eq_refl)) as (H1 & H2 & _).
  destruct (unreadable_dates_are_refused clk "" None clk_ok
              (or_introl eq_refl)) as (_ & _ & H3).
  split; [exact H1|]. split; [exact H2|exact H3].
Defined.

(* ================================================================== *)
(** ** Formatting                                                      *)
(* ================================================================== *)

Section Booked.

Variable c : Clock.

Lemma formatDate_reads_UTC_midnight :
  Appointments.formatDate c "2025-03-10"
  = toLocaleDateString c (Some 1741564800000).
Proof. reflexivity. Qed.

Lemma Date_parse_booked :
  Date_parse c "2025-03-10T14:30:00" = TimeClip (UTC c 1741617000000).
Proof. reflexivity. Qed.

(** With date and time the booked fields are rendered in every zone. *)
Lemma formatDateTime_booked :
  - msPerDay <= tza c <= msPerDay ->
  Appointments.formatDateTime c "2025-03-10" (Some "14:30:00")
  = LongDateTime 2025 3 10 14 30
  /\ MyQueue.formatDateTime c "2025-03-10" (Some "14:30:00")
     = LongDateTime 2025 3 10 14 30.
Proof.
  intros Hz.
  assert (TimeClip (UTC c 1741617000000) = Some (UTC c 1741617000000)) as Hclip.
  { unfold TimeClip. case_match; [done|]. ltb_prop.
    unfold UTC, msPerDay in *. lia. }
  assert (toLocaleDateString_hm c (Some (UTC c 1741617000000))
          = LongDateTime 2025 3 10 14 30) as Hr.
  { unfold toLocaleDateString_hm. rewrite LocalTime_UTC. by vm_compute. }
  split.
  - unfold Appointments.formatDateTime.
    change (String.eqb "2025-03-10" "") with false. cbn [given].
    change (Date_parse c _) with (Date_parse c "2025-03-10T14:30:00").
    rewrite Date_parse_booked, Hclip. exact Hr.
  - unfold MyQueue.formatDateTime. cbn [given].
    change (Date_parse c _) with (Date_parse c "2025-03-10T14:30:00").
    rewrite Date_parse_booked, Hclip. exact Hr.
Qed.

(** East of UTC (or on it) the date-only text keeps its date. *)
Lemma formatDate_east :
  0 <= tza c < msPerDay ->
  Appointments.formatDate c "2025-03-10" = LongDate 2025 3 10.
Proof.
  intros Hz. rewrite formatDate_reads_UTC_midnight. unfold toLocaleDateString.
  replace (Day (LocalTime c 1741564800000)) with 20157
    by (unfold Day, LocalTime, msPerDay in *; zdiv).
  reflexivity.
Qed.

(** West of UTC it is rendered as the day before. *)
Lemma formatDate_west :
  - msPerDay <= tza c < 0 ->
  Appointments.formatDate c "2025-03-10" = LongDate 2025 3 9.
Proof.
  intros Hz. rewrite formatDate_reads_UTC_midnight. unfold toLocaleDateString.
  replace (Day (LocalTime c 1741564800000)) with 20156
    by (unfold Day, LocalTime, msPerDay in *; zdiv).
  reflexivity.
Qed.

End Booked.

(** C4.  The claim: an appointment booked for 2025-03-10, 14:30:00 is
    rendered with that date and time by every formatter, in every time
    zone.  [formatDateTime] of both pages and of the queue view does so
    when it is given date and time (the combined text is read as local
    time, [formatDateTime_booked]).  [formatDate], and [formatDateTime]
    without a time, hand the date-only text to [new Date(string)]
    first, which reads it as UTC midnight: in every zone west of UTC
    the date is rendered as 9 March 2025 ([formatDate_west]), here five
    hours west.  The branch that builds the date from its components
    is only reached when that first reading fails; [isToday] builds it
    from the components and finds the same string to be today. *)
Theorem formatDate_shifts_west_of_UTC :
  tza clk = -5 * 3600000
  /\ Appointments.formatDate clk "2025-03-10" = LongDate 2025 3 9
  /\ Appointments.formatDateTime clk "2025-03-10" None
     = LongDateTime 2025 3 9 19 0
  /\ Appointments.formatDateTime clk "2025-03-10" (Some "14:30:00")
     = LongDateTime 2025 3 10 14 30
  /\ MyQueue.formatDateTime clk "2025-03-10" (Some "14:30:00")
     = LongDateTime 2025 3 10 14 30
  /\ Appointments.formatDate {| now := now clk; tza := 0 |} "2025-03-10"
     = LongDate 2025 3 10
  /\ Appointments.isToday clk "2025-03-10" = true.
Proof. by vm_compute. Qed.

(* ================================================================== *)
(** ** More on the reconciliation passes                               *)
(* ================================================================== *)

Section PassTraces.

Variable srv : Backend.

Lemma loop_log_of_list (l : list Appointment) acc :
  position_requests (foldl (Appointments.fetch_one srv) acc l).2
  = (position_requests acc.2 ++ map id l)%list.
Proof.
  revert acc. induction l as [|a l IH]; intros acc.
  - cbn. by rewrite app_nil_r.
  - cbn [foldl]. rewrite IH. unfold Appointments.fetch_one.
    destruct (getQueuePosition srv (id a)); cbn [snd];
      unfold position_requests; rewrite omap_app; cbn;
      by rewrite <- app_assoc.
Qed.

Lemma loop_log_same (l : list Appointment) m m' lg :
  (foldl (Appointments.fetch_one srv) (m, lg) l).2
  = (foldl (Appointments.fetch_one srv) (m', lg) l).2.
Proof.
  revert m m' lg. induction l as [|a l IH]; intros m m' lg; [done|].
  cbn [foldl]. unfold Appointments.fetch_one at 2 4.
  destruct (getQueuePosition srv (id a)); cbn; apply IH.
Qed.

Lemma loop_no_checkin (l : list Appointment) acc :
  checkin_requests (foldl (Appointments.fetch_one srv) acc l).2
  = checkin_requests acc.2.
Proof.
  revert acc. induction l as [|a l IH]; intros acc; [done|].
  cbn [foldl]. rewrite IH. unfold Appointments.fetch_one.
  destruct (getQueuePosition srv (id a)); cbn [snd];
    unfold checkin_requests; rewrite omap_app; cbn; by rewrite app_nil_r.
Qed.

Lemma fetchAppointments_no_checkin st :
  checkin_requests (Appointments.fetchAppointments srv st).2 = [].
Proof.
  unfold Appointments.fetchAppointments.
  destruct (getMyAppointments srv) as [data|e]; [|done].
  pose proof (loop_no_checkin
                (filter (λ apt, Appointments.active apt = true) data)
                (Appointments.queueStatus st, [Sent GET_appointments_my])) as H.
  by destruct (foldl _ _ _).
Qed.

End PassTraces.

(** X1.  [fetchAppointments] sends, after the list request, one
    position request for each confirmed or in-progress appointment of
    the list, in list order and whatever the answers to the earlier
    ones were; when the list request is rejected it sends none. *)
Theorem fetchAppointments_requests (srv : Backend) (st : Appointments.PageState) :
  position_requests (Appointments.fetchAppointments srv st).2
  = match getMyAppointments srv with
    | Fulfilled data =>
        map id (filter (λ apt, Appointments.active apt = true) data)
    | Rejected _ => []
    end.
Proof.
  unfold Appointments.fetchAppointments.
  destruct (getMyAppointments srv) as [data|e]; [|done].
  pose proof (loop_log_of_list srv
                (filter (λ apt, Appointments.active apt = true) data)
                (Appointments.queueStatus st, [Sent GET_appointments_my])) as H.
  by destruct (foldl _ _ _).
Qed.

(** X2.  [fetchAppointments] is idempotent: run again on the state it
    left, against a backend that answers the same, it leaves the same
    state and sends the same requests. *)
Theorem fetchAppointments_idempotent (srv : Backend)
    (st : Appointments.PageState) :
  Appointments.fetchAppointments srv (Appointments.fetchAppointments srv st).1
  = Appointments.fetchAppointments srv st.
Proof.
  unfold Appointments.fetchAppointments.
  destruct (getMyAppointments srv) as [data|e]; [|done].
  set (l := filter (λ apt, Appointments.active apt = true) data).
  pose proof (loop_union srv l (Appointments.queueStatus st)
                [Sent GET_appointments_my] []) as H1.
  pose proof (loop_log_same srv l) as Hlog.
  destruct (foldl _ (Appointments.queueStatus st, _) l) as [qs lg] eqn:E1.
  cbn [fst Appointments.queueStatus Appointments.cancelDialogOpen
       Appointments.appointmentToCancel].
  pose proof (loop_union srv l qs [Sent GET_appointments_my] []) as H2.
  specialize (Hlog qs (Appointments.queueStatus st) [Sent GET_appointments_my]).
  destruct (foldl _ (qs, _) l) as [qs' lg'] eqn:E2.
  rewrite E1 in Hlog. cbn [fst snd] in *. subst lg'.
  assert (qs' = qs) as ->; [|done].
  rewrite H2, H1. rewrite map_union_assoc.
  by rewrite (idemp_L (∪)).
Qed.

(* ================================================================== *)
(** ** More on the queue view                                          *)
(* ================================================================== *)

Section QueueViewList.

Variable c : Clock.
Variable srv : Backend.

Lemma queue_item_appointment a :
  MyQueue.appointment (MyQueue.queue_item c srv a).1 = a.
Proof.
  unfold MyQueue.queue_item. destruct (negb _); [done|].
  by destruct (getQueuePosition srv (id a)).
Qed.

Lemma queue_items_appointments (l : list Appointment) :
  map MyQueue.appointment (map fst (map (MyQueue.queue_item c srv) l)) = l.
Proof.
  induction l as [|a l IH]; [done|]. cbn. by rewrite queue_item_appointment, IH.
Qed.

Lemma queue_items_requests (l : list Appointment) :
  position_requests (List.concat (map snd (map (MyQueue.queue_item c srv) l)))
  = map id (filter (λ apt, MyQueue.isToday c (appointment_date apt) = true) l).
Proof.
  induction l as [|a l IH]; [done|].
  cbn [map List.concat]. unfold position_requests in *. rewrite omap_app, IH.
  rewrite filter_cons. unfold MyQueue.queue_item.
  destruct (MyQueue.isToday c (appointment_date a)) eqn:E; cbn [negb].
  - rewrite decide_True by done.
    by destruct (getQueuePosition srv (id a)).
  - rewrite decide_False by done. done.
Qed.


End QueueViewList.

(** X3.  Once the list has arrived, [MyQueue.fetchQueueData] shows
    exactly the scheduled, confirmed and in-progress appointments of
    the list, in list order, each once; the result does not depend on
    what the view held before (the state is replaced, not merged). *)
Theorem fetchQueueData_replaces (c : Clock) (srv : Backend)
    (data : list Appointment) (st : MyQueue.PageState) :
  getMyAppointments srv = Fulfilled data ->
  map MyQueue.appointment (MyQueue.queueData (MyQueue.fetchQueueData c srv st).1)
  = filter (λ apt, MyQueue.active apt = true) data
  /\ forall st', MyQueue.fetchQueueData c srv st' = MyQueue.fetchQueueData c srv st.
Proof.
  intros Hlist. split.
  - rewrite (fetchQueueData_list c srv data Hlist). cbn.
    apply queue_items_appointments.
  - intros st'. by rewrite !(fetchQueueData_list c srv data Hlist).
Qed.

Lemma fetchQueueData_replaces_witness :
  let A := appt 1 "2025-03-10" "09:00" "scheduled" in
  let B := appt 2 "2025-03-10" "09:30" "completed" in
  let C := appt 3 "2025-03-12" "10:00" "confirmed" in
  let srv := backend [A; B; C] (λ _, Fulfilled q2) in
  let old := {| MyQueue.queueData :=
                  [{| MyQueue.appointment := B; MyQueue.queueInfo := Some q2 |}];
                MyQueue.loading := false; MyQueue.refreshing := false |} in
  getMyAppointments srv = Fulfilled [A; B; C]
  /\ map MyQueue.appointment
       (MyQueue.queueData (MyQueue.fetchQueueData clk srv old).1) = [A; C].
Proof.
  intros A B C srv old. split; [reflexivity|].
  exact (proj1 (fetchQueueData_replaces clk srv [A; B; C] old eq_refl)).
Defined.

(** X4.  Once the list has arrived, [MyQueue.fetchQueueData] asks the
    position of exactly the active appointments that [isToday] accepts,
    in list order; for an appointment of another day no request is
    sent. *)
Theorem fetchQueueData_requests (c : Clock) (srv : Backend)
    (data : list Appointment) (st : MyQueue.PageState) :
  getMyAppointments srv = Fulfilled data ->
  position_requests (MyQueue.fetchQueueData c srv st).2
  = map id (filter (λ apt, MyQueue.isToday c (appointment_date apt) = true)
              (filter (λ apt, MyQueue.active apt = true) data)).
Proof.
  intros Hlist. rewrite (fetchQueueData_list c srv data Hlist). cbn [snd].
  unfold position_requests at 1. cbn [omap list_omap].
  apply queue_items_requests.
Qed.

Lemma fetchQueueData_requests_witness :
  let A := appt 1 "2025-03-10" "09:00" "scheduled" in
  let B := appt 2 "2025-03-10" "09:30" "completed" in
  let C := appt 3 "2025-03-12" "10:00" "confirmed" in
  let srv := backend [A; B; C] (λ _, Fulfilled q2) in
  getMyAppointments srv = Fulfilled [A; B; C]
  /\ position_requests (MyQueue.fetchQueueData clk srv MyQueue.initial).2 = [1].
Proof.
  intros A B C srv. split; [reflexivity|].
  exact (fetchQueueData_requests clk srv [A; B; C] MyQueue.initial eq_refl).
Defined.



(* ================================================================== *)
(** ** More on eligibility                                             *)
(* ================================================================== *)

Section Today.

Variable c : Clock.
Hypothesis Hc : clock_ok c.

Lemma civil_lt_irrefl a : ~ civil_lt a a.
Proof. destruct a as [[y m] d]. unfold civil_lt. lia. Qed.

Lemma civil_lt_asym a b : civil_lt a b -> ~ civil_lt b a.
Proof.
  destruct a as [[y1 m1] d1], b as [[y2 m2] d2]. unfold civil_lt. lia.
Qed.

(** A date that [isToday] accepts, however it is written, is not
    before the local midnight of today. *)
Lemma isToday_not_before ds :
  Appointments.isToday c ds = true ->
  String.eqb ds "" = false
  /\ date_lt (appt_date c ds (Fin 0) (Fin 0)) (today_midnight c) = false.
Proof.
  unfold Appointments.isToday. destruct (String.eqb ds ""); [done|].
  intros H. split; [done|].
  destruct (appt_date c ds (Fin 0) (Fin 0)) as [tv|]; [|done].
  rewrite (today_midnight_eq c Hc). unfold Date_now in H.
  cbn [getFullYear getMonth getDate] in H.
  rewrite !andb_true_iff, !strict_eq_Fin in H. destruct H as [[Hy Hm] Hd].
  assert (Day (LocalTime c tv) = Day (LocalTime c (now c))) as Hday.
  { rewrite <- (MakeDay_fields (Day (LocalTime c tv))).
    rewrite <- (MakeDay_fields (Day (LocalTime c (now c)))).
    by rewrite Hy, Hm, Hd. }
  unfold date_lt. apply Z.ltb_ge.
  unfold UTC, MakeDate, Day, LocalTime, msPerDay in *. zdiv.
Qed.

Lemma appt_date_empty :
  appt_date c "" (Fin 0) (Fin 0) = Some (UTC c (MakeDate (-25567) 0)).
Proof.
  destruct Hc as [Hn Hz]. unfold appt_date.
  cbn [split map elem lookup list_lookup ToNumber or_default minus1].
  change (Number "") with (Fin 0). cbn [Date_of_parts ToNumber integer_part].
  change (MakeDay _ _ _) with (-25567). change (MakeTime 0 0 0 0) with 0.
  unfold TimeClip. case_match; [done|]. ltb_prop.
  unfold UTC, MakeDate, msPerDay in *. lia.
Qed.

Lemma myqueue_isPast_empty t : MyQueue.isPastAppointment c "" t = true.
Proof.
  unfold MyQueue.isPastAppointment. rewrite appt_date_empty.
  rewrite (today_midnight_eq c Hc).
  replace (date_lt _ _) with true; [done|]. symmetry. apply Z.ltb_lt.
  destruct Hc as [Hn Hz].
  unfold UTC, MakeDate, Day, LocalTime, msPerDay in *. zdiv.
Qed.

End Today.

(** X6.  For a clock from 1970 on and a date string that [isToday]
    accepts (well-formed or not), [isPastAppointment] is decided by the
    time argument alone: false when no time is given or it is empty,
    and otherwise the comparison of the date-time built from the
    hours and minutes with now. *)
Theorem today_is_past_by_time_only (c : Clock) (dateString : string)
    (timeString : option string) :
  clock_ok c ->
  Appointments.isToday c dateString = true ->
  Appointments.isPastAppointment c dateString timeString
  = match given timeString with
    | Some t => date_lt (appt_date_time c dateString t) (Date_now c)
    | None => false
    end.
Proof.
  intros Hc Ht. destruct (isToday_not_before c Hc _ Ht) as [Hne Hlt].
  unfold Appointments.isPastAppointment. by rewrite Hne, Hlt, Ht.
Qed.

Lemma today_is_past_by_time_only_witness :
  clock_ok clk
  /\ Appointments.isToday clk "2025-03-10" = true
  /\ Appointments.isPastAppointment clk "2025-03-10" None = false.
Proof.
  split; [exact clk_ok|]. split; [reflexivity|].
  exact (today_is_past_by_time_only clk "2025-03-10" None clk_ok eq_refl).
Defined.

(** X7.  For a clock from 1970 on, a well-formed date after today's
    local date is neither today nor past, whatever the time string,
    and no appointment carrying it can be checked in, whatever its
    status. *)
Theorem future_date_is_not_past (c : Clock) (dateString : string) (y m d : Z) :
  clock_ok c ->
  reads_date dateString y m d ->
  civil_lt (local_date c) (y, m, d) ->
  Appointments.isToday c dateString = false
  /\ (forall t, Appointments.isPastAppointment c dateString t = false)
  /\ (forall a, appointment_date a = dateString ->
                Appointments.canCheckIn c a = false).
Proof.
  intros Hc Hr Hlt.
  assert (Appointments.isToday c dateString = false) as Ht.
  { destruct (Appointments.isToday c dateString) eqn:E; [|done].
    apply (isToday_iff c Hc _ _ _ _ Hr) in E. rewrite E in Hlt.
    by apply civil_lt_irrefl in Hlt. }
  split; [done|]. split.
  - intros t. unfold Appointments.isPastAppointment.
    rewrite (reads_date_nonempty _ _ _ _ Hr), Ht.
    destruct (date_lt _ (today_midnight c)) eqn:E; [|done].
    apply (before_today_iff c Hc _ _ _ _ Hr) in E.
    by apply civil_lt_asym in E.
  - intros a <-. unfold Appointments.canCheckIn. rewrite Ht.
    by rewrite andb_false_r.
Qed.

Lemma future_date_is_not_past_witness :
  clock_ok clk
  /\ reads_date "2025-03-11" 2025 3 11
  /\ civil_lt (local_date clk) (2025, 3, 11)
  /\ Appointments.isPastAppointment clk "2025-03-11" (Some "00:00") = false.
Proof.
  assert (reads_date "2025-03-11" 2025 3 11) as Hd.
  { split; [reflexivity|]. split; [lia|]. vm_compute. intuition discriminate. }
  assert (civil_lt (local_date clk) (2025, 3, 11)) as Hlt.
  { change (local_date clk) with (2025, 3, 10). unfold civil_lt. lia. }
  split; [exact clk_ok|]. split; [exact Hd|]. split; [exact Hlt|].
  destruct (future_date_is_not_past clk "2025-03-11" 2025 3 11 clk_ok Hd Hlt)
    as (_ & Hpast & _).
  exact (Hpast (Some "00:00")).
Defined.

(** X8.  The check-in window.  For a clock from 1970 on and an
    appointment with a well-formed date and time, [canCheckIn] holds
    exactly when the status is [scheduled], the date is today's local
    date, and the local time of day is at most the hour and minute of
    the appointment (the seconds of the time string are not read). *)
Theorem canCheckIn_window (c : Clock) (a : Appointment) (y m d h mi : Z) :
  clock_ok c ->
  reads_date (appointment_date a) y m d ->
  reads_time (Some (scheduled_time a)) (Some (h, mi)) ->
  Appointments.canCheckIn c a = true
  <-> status a = "scheduled"
      /\ (y, m, d) = local_date c
      /\ local_time_of_day c <= MakeTime h mi 0 0.
Proof.
  intros Hc Hd Ht. unfold Appointments.canCheckIn.
  rewrite !andb_true_iff, negb_true_iff, String.eqb_eq.
  rewrite (isToday_iff c Hc _ _ _ _ Hd).
  pose proof (isPast_iff c Hc _ _ _ _ _ _ Hd Ht) as Hp.
  split.
  - intros [[Hs He] Hn]. split; [done|]. split; [done|].
    destruct (Z_lt_le_dec (MakeTime h mi 0 0) (local_time_of_day c)) as [Hlt|]; [|done].
    assert (Appointments.isPastAppointment c (appointment_date a)
              (Some (scheduled_time a)) = true) as Hpast.
    { apply Hp. right. split; [done|]. by exists h, mi. }
    congruence.
  - intros (Hs & He & Hle). split; [done|].
    destruct (Appointments.isPastAppointment c _ _) eqn:E; [|done].
    destruct (proj1 Hp eq_refl) as [Hlt | (_ & h' & mi' & [= <- <-] & Hlt)].
    + rewrite He in Hlt. by apply civil_lt_irrefl in Hlt.
    + lia.
Qed.

Lemma canCheckIn_window_witness :
  let a := appt 7 "2025-03-10" "14:30:00" "scheduled" in
  clock_ok clk
  /\ reads_date (appointment_date a) 2025 3 10
  /\ reads_time (Some (scheduled_time a)) (Some (14, 30))
  /\ Appointments.canCheckIn clk a = false.
Proof.
  intros a.
  assert (reads_date (appointment_date a) 2025 3 10) as Hd.
  { split; [reflexivity|]. split; [lia|]. vm_compute. intuition discriminate. }
  assert (reads_time (Some (scheduled_time a)) (Some (14, 30))) as Ht.
  { exists 14, 30, [Fin 0]. split; [reflexivity|]. split; [lia|]. split; [lia|].
    reflexivity. }
  split; [exact clk_ok|]. split; [exact Hd|]. split; [exact Ht|].
  destruct (Appointments.canCheckIn clk a) eqn:E; [|reflexivity].
  apply (canCheckIn_window clk a 2025 3 10 14 30 clk_ok Hd Ht) in E.
  destruct E as (_ & _ & Hle). vm_compute in Hle. destruct Hle. reflexivity.
Defined.

(** X9.  For a clock from 1970 on the queue view agrees with the
    appointments page: its Check In button is rendered exactly when
    [canCheckIn] holds, its [isToday] is the same function, and its
    [isPastAppointment] is the same on every date string but the empty
    one, which the queue view (having no guard) reads as 1 January
    1900 and reports as past, while the page reports it as not past. *)
Theorem myqueue_agrees_with_page (c : Clock) :
  clock_ok c ->
  (forall a, MyQueue.checkInButton c a = Appointments.canCheckIn c a)
  /\ (forall ds, MyQueue.isToday c ds = Appointments.isToday c ds)
  /\ (forall ds t, ds <> "" ->
        MyQueue.isPastAppointment c ds t = Appointments.isPastAppointment c ds t)
  /\ (forall t, MyQueue.isPastAppointment c "" t = true
                /\ Appointments.isPastAppointment c "" t = false).
Proof.
  intros Hc.
  assert (forall ds, MyQueue.isToday c ds = Appointments.isToday c ds) as Htoday.
  { intros ds. unfold Appointments.isToday.
    destruct (String.eqb ds "") eqn:E; [|done].
    apply String.eqb_eq in E as ->. by apply myqueue_isToday_empty. }
  assert (forall ds t, ds <> "" ->
            MyQueue.isPastAppointment c ds t
            = Appointments.isPastAppointment c ds t) as Hpast.
  { intros ds t Hne. apply String.eqb_neq in Hne.
    unfold Appointments.isPastAppointment, MyQueue.isPastAppointment.
    by rewrite Hne, Htoday. }
  split; [|split; [done|split; [done|]]].
  - intros a. unfold MyQueue.checkInButton, Appointments.canCheckIn.
    rewrite Htoday.
    destruct (String.eqb (appointment_date a) "") eqn:E.
    + apply String.eqb_eq in E. rewrite E.
      change (Appointments.isToday c "") with false.
      by rewrite !andb_false_r.
    + apply String.eqb_neq in E. by rewrite Hpast.
  - intros t. split; [by apply myqueue_isPast_empty|done].
Qed.

Lemma myqueue_agrees_with_page_witness :
  clock_ok clk
  /\ MyQueue.isPastAppointment clk "" None = true
  /\ MyQueue.checkInButton clk (appt 7 "" "15:00" "scheduled") = false.
Proof.
  destruct (myqueue_agrees_with_page clk clk_ok) as (Hb & _ & _ & He).
  split; [exact clk_ok|]. split; [exact (proj1 (He None))|].
  rewrite Hb. reflexivity.
Defined.

(* ================================================================== *)
(** ** More on the handlers                                            *)
(* ================================================================== *)

(** X10.  [handleCheckIn] of Appointments.tsx and Dashboard.tsx sends
    [POST /queue/checkin/{id}] exactly once when the id is that of an
    appointment of the page's list for which [canCheckIn] holds, and
    not at all otherwise; when the check-in is rejected the page state
    is left as it was. *)
Theorem handleCheckIn_posts_iff_eligible (c : Clock) (srv : Backend)
    (st : Appointments.PageState) (i : Z) :
  checkin_requests (Appointments.handleCheckIn c srv st i).2
  = match find (λ apt, id apt =? i) (Appointments.appointments st) with
    | Some a => if Appointments.canCheckIn c a then [i] else []
    | None => []
    end
  /\ (forall e, checkIn srv i = Rejected e ->
                (Appointments.handleCheckIn c srv st i).1 = st).
Proof.
  unfold Appointments.handleCheckIn.
  destruct (find _ _) as [a|]; [|done].
  destruct (Appointments.canCheckIn c a); cbn [negb].
  - destruct (checkIn srv i) as [[]|e] eqn:E.
    + pose proof (fetchAppointments_no_checkin srv st) as Hno.
      destruct (Appointments.fetchAppointments srv st) as [st' lg].
      cbn [snd] in *. unfold checkin_requests in *. cbn. by rewrite Hno.
    + done.
  - by repeat case_match.
Qed.

Lemma handleCheckIn_posts_iff_eligible_witness :
  let a := appt 7 "2025-03-10" "15:00:00" "scheduled" in
  let st := {| Appointments.appointments := [a]; Appointments.queueStatus := ∅;
               Appointments.loading := false;
               Appointments.cancelDialogOpen := false;
               Appointments.appointmentToCancel := None |} in
  checkIn (refusing no_response) 7 = Rejected no_response
  /\ (Appointments.handleCheckIn clk (refusing no_response) st 7).1 = st
  /\ checkin_requests
       (Appointments.handleCheckIn clk (refusing no_response) st 7).2 = [7].
Proof.
  intros a st.
  destruct (handleCheckIn_posts_iff_eligible clk (refusing no_response) st 7)
    as [Hreq Hst].
  split; [reflexivity|]. split; [exact (Hst no_response eq_refl)|].
  rewrite Hreq. reflexivity.
Defined.



(* ================================================================== *)
(** ** Tabs, lists and buttons                                         *)
(* ================================================================== *)

Section TabLists.

Lemma tab_lengths (l : list Appointment) :
  (List.length (Tabs.upcomingAppointments l)
   + List.length (Tabs.activeAppointments l)
   + List.length (Tabs.completedAppointments l)
   + List.length (Tabs.cancelledAppointments l))%nat
  = List.length (filter (λ apt, known_status apt = true) l).
Proof.
  unfold Tabs.upcomingAppointments, Tabs.activeAppointments,
    Tabs.completedAppointments, Tabs.cancelledAppointments,
    known_status, Tabs.has_status.
  induction l as [|a l IH]; [done|].
  rewrite !filter_cons.
  destruct (String.eqb (status a) "scheduled") eqn:E1;
    destruct (String.eqb (status a) "confirmed") eqn:E2;
    destruct (String.eqb (status a) "in_progress") eqn:E3;
    destruct (String.eqb (status a) "completed") eqn:E4;
    destruct (String.eqb (status a) "cancelled") eqn:E5;
    destruct (String.eqb (status a) "no_show") eqn:E6;
    cbn [orb]; repeat case_decide; try done; cbn [List.length]; try lia;
    exfalso;
    repeat match goal with
           | H : String.eqb _ _ = true |- _ => apply String.eqb_eq in H
           end; congruence.
Qed.

End TabLists.

(** X12.  The tabs of the appointments page.  Every tab, also for a
    tab index outside 0..4, shows a sublist of the filtered list (same
    order, nothing added).  An appointment of the list is under
    Upcoming exactly when it is scheduled or confirmed, which is
    exactly when Cancel is offered for it; under Active when in
    progress; under Completed when completed; under Cancelled when
    cancelled or no-show.  The four tabs together hold as many entries
    as the list has appointments with one of the six statuses. *)
Theorem tabs_partition (l : list Appointment) :
  (forall k, Tabs.getTabAppointments k l `sublist_of` l)
  /\ (forall a, a ∈ l ->
        (a ∈ Tabs.getTabAppointments 1 l
         <-> status a = "scheduled" \/ status a = "confirmed")
        /\ (a ∈ Tabs.getTabAppointments 1 l
            <-> Tabs.canCancelAppointment a = true)
        /\ (a ∈ Tabs.getTabAppointments 2 l <-> status a = "in_progress")
        /\ (a ∈ Tabs.getTabAppointments 3 l <-> status a = "completed")
        /\ (a ∈ Tabs.getTabAppointments 4 l
            <-> status a = "cancelled" \/ status a = "no_show"))
  /\ (List.length (Tabs.getTabAppointments 1 l) + List.length (Tabs.getTabAppointments 2 l)
      + List.length (Tabs.getTabAppointments 3 l)
      + List.length (Tabs.getTabAppointments 4 l))%nat
     = List.length (filter (λ apt, known_status apt = true) l).
Proof.
  split; [|split].
  - intros k.
    assert (forall P `{!forall x : Appointment, Decision (P x)},
              filter P l `sublist_of` l) as Hsub by (intros; apply sublist_filter).
    destruct k as [|p|p]; [done| |done].
    unfold Tabs.getTabAppointments.
    repeat (case_match; try done); apply Hsub.
  - intros a Ha. cbn [Tabs.getTabAppointments].
    unfold Tabs.upcomingAppointments, Tabs.activeAppointments,
      Tabs.completedAppointments, Tabs.cancelledAppointments,
      Tabs.canCancelAppointment, Tabs.has_status.
    rewrite !list_elem_of_filter, !orb_true_iff, !String.eqb_eq. tauto.
  - apply tab_lengths.
Qed.

Lemma tabs_partition_witness :
  let a := appt 1 "2025-03-10" "09:00" "confirmed" in
  let b := appt 2 "2025-03-10" "09:30" "no_show" in
  a ∈ [a; b]
  /\ a ∈ Tabs.getTabAppointments 1 [a; b]
  /\ Tabs.canCancelAppointment a = true.
Proof.
  intros a b.
  assert (a ∈ [a; b]) as Hin by (apply list_elem_of_In; left; reflexivity).
  destruct (proj1 (proj2 (tabs_partition [a; b])) a Hin) as (H1 & H2 & _).
  assert (a ∈ Tabs.getTabAppointments 1 [a; b]) as Hup
    by (apply H1; right; reflexivity).
  split; [exact Hin|]. split; [exact Hup|]. exact (proj1 H2 Hup).
Defined.



(** X14.  The buttons of a queue card.  Whenever Check In is rendered,
    Cancel is rendered too and Missed Appointment is not.  For a
    scheduled appointment exactly one of Cancel and Missed Appointment
    is rendered; and where Missed Appointment is rendered, the queue
    slot of the card shows the time-passed notice, whatever was
    fetched. *)
Theorem queue_card_buttons (c : Clock) (qa : MyQueue.QueueAppointment) :
  let a := MyQueue.appointment qa in
  (MyQueue.checkInButton c a = true ->
     QueueCard.cancelButton c a = true /\ QueueCard.missedButton c a = false)
  /\ (status a = "scheduled" ->
        QueueCard.cancelButton c a = negb (QueueCard.missedButton c a))
  /\ (QueueCard.missedButton c a = true ->
        QueueCard.panel c qa = QueueCard.TimePassed).
Proof.
  intros a. subst a.
  unfold MyQueue.checkInButton, QueueCard.cancelButton, QueueCard.missedButton,
    QueueCard.panel.
  destruct (MyQueue.isPastAppointment c _ _);
    destruct (MyQueue.isToday c _);
    destruct (String.eqb (status (MyQueue.appointment qa)) "scheduled") eqn:E;
    try (apply String.eqb_eq in E; rewrite E); cbn;
    repeat split; try done; intros ?; try done;
    try (apply String.eqb_neq in E; done).
Qed.

Lemma queue_card_buttons_witness :
  let qa := {| MyQueue.appointment := appt 7 "2025-03-10" "15:00" "scheduled";
               MyQueue.queueInfo := None |} in
  MyQueue.checkInButton clk (MyQueue.appointment qa) = true
  /\ QueueCard.cancelButton clk (MyQueue.appointment qa) = true.
Proof.
  intros qa. split; [reflexivity|].
  exact (proj1 (proj1 (queue_card_buttons clk qa) eq_refl)).
Defined.

(* ================================================================== *)
(** ** The request interceptor                                         *)
(* ================================================================== *)

(** X15.  The request interceptor leaves the url and every header
    other than [Authorization] as they were; with a non-empty token in
    local storage it sets [Authorization] to [Bearer <token>],
    replacing any value the configuration carried; with no token, or
    an empty one, it returns the configuration unchanged. *)
Theorem on_request_header (b : Api.Browser) (config : ApiRequest.Config) :
  let config' := ApiRequest.on_request b config in
  ApiRequest.url config' = ApiRequest.url config
  /\ (forall k, k <> "Authorization" ->
        ApiRequest.headers config' !! k = ApiRequest.headers config !! k)
  /\ (forall token, Api.localStorage b !! "token" = Some token -> token <> "" ->
        ApiRequest.headers config' !! "Authorization"
        = Some ("Bearer " ++ token))
  /\ (Api.localStorage b !! "token" = None
      \/ Api.localStorage b !! "token" = Some "" -> config' = config).
Proof.
  unfold ApiRequest.on_request. cbv zeta.
  destruct (Api.localStorage b !! "token") as [[|ch t]|] eqn:E; cbn.
  - repeat split; try done. by intros token [= <-].
  - repeat split.
    + intros k Hk. by rewrite lookup_insert_ne.
    + intros token [= <-] _. by rewrite lookup_insert_eq.
    + by intros [|].
  - done.
Qed.

Lemma on_request_header_witness :
  let b := {| Api.localStorage := {[ "token" := "abc" ]};
              Api.location_href := "/" |} in
  let config := {| ApiRequest.url := "/appointments/my";
                   ApiRequest.headers := {[ "Accept" := "application/json" ]} |} in
  Api.localStorage b !! "token" = Some "abc"
  /\ "abc" <> ""
  /\ ApiRequest.headers (ApiRequest.on_request b config) !! "Authorization"
     = Some "Bearer abc".
Proof.
  intros b config.
  assert ("abc" <> "") as Hne by discriminate.
  split; [reflexivity|]. split; [exact Hne|].
  destruct (on_request_header b config) as (_ & _ & Htok & _).
  exact (Htok "abc" eq_refl Hne).
Defined.

(** X16.  The two interceptors together: once a response with status
    401 has gone through the response interceptor, the request
    interceptor attaches no token to the next request, whatever local
    storage held before. *)
Theorem no_token_after_401 {A : Type} (error : AxiosError) (b : Api.Browser)
    (config : ApiRequest.Config) :
  response_status error = Some 401 ->
  ApiRequest.on_request (Api.on_rejected (A := A) error b).1 config = config.
Proof.
  intros Hs. unfold Api.on_rejected, ApiRequest.on_request.
  rewrite bool_decide_eq_true_2 by done. cbn. by rewrite lookup_delete_eq.
Qed.

Lemma no_token_after_401_witness :
  let expired := {| response_status := Some 401; response_detail := None |} in
  let b := {| Api.localStorage := {[ "token" := "abc" ]};
              Api.location_href := "/" |} in
  let config := {| ApiRequest.url := "/appointments/my";
                   ApiRequest.headers := ∅ |} in
  response_status expired = Some 401
  /\ ApiRequest.on_request (Api.on_rejected (A := unit) expired b).1 config
     = config.
Proof.
  intros expired b config. split; [reflexivity|].
  exact (no_token_after_401 (A := unit) expired b config eq_refl).
Defined.

(* ================================================================== *)
(** ** The texts of the booking form, read back                        *)
(* ================================================================== *)

Section BookedTexts.

Import Booking.

Lemma forall_below (P : Z -> bool) (N : Z) :
  forallb P (map Z.of_nat (seq 0 (Z.to_nat N))) = true ->
  forall z, 0 <= z < N -> P z = true.
Proof.
  intros H z Hz. rewrite forallb_forall in H. apply H.
  apply in_map_iff. exists (Z.to_nat z). split; [lia|]. apply in_seq. lia.
Qed.

Lemma digit_char_facts d :
  0 <= d <= 9 ->
  digit_of (digit_char d) = Some d
  /\ Ascii.eqb (digit_char d) "-" = false
  /\ Ascii.eqb (digit_char d) ":" = false
  /\ Ascii.eqb (digit_char d) "T" = false
  /\ Ascii.eqb (digit_char d) " " = false.
Proof.
  intros Hd.
  assert (d = 0 \/ d = 1 \/ d = 2 \/ d = 3 \/ d = 4 \/ d = 5 \/ d = 6
          \/ d = 7 \/ d = 8 \/ d = 9) as Hc by lia.
  destruct Hc as [->|[->|[->|[->|[->|[->|[->|[->|[->| ->]]]]]]]]]; by vm_compute.
Qed.

Lemma two_digits_range n :
  0 <= n <= 99 -> 0 <= n / 10 <= 9 /\ 0 <= n mod 10 <= 9.
Proof. intros. zdiv. Qed.

Lemma append_cons ch (s t : string) : String ch s ++ t = String ch (s ++ t).
Proof. reflexivity. Qed.

Lemma append_nil (t : string) : "" ++ t = t.
Proof. reflexivity. Qed.

Lemma append_assoc (s t u : string) : (s ++ t) ++ u = s ++ (t ++ u).
Proof. induction s as [|ch s IH]; [done|]. by rewrite !append_cons, IH. Qed.

(** Bring appended literals and digit pairs to their characters. *)
Ltac chars := unfold two_digits; rewrite ?append_cons, ?append_nil.

Lemma take_two_digits n acc rest k :
  0 <= n <= 99 ->
  take_digits (S (S k)) acc (two_digits n ++ rest)
  = take_digits k (100 * acc + n) rest.
Proof.
  intros Hn. destruct (two_digits_range n Hn) as [H1 H2].
  destruct (digit_char_facts _ H1) as (E1 & _).
  destruct (digit_char_facts _ H2) as (E2 & _).
  chars. cbn [take_digits]. rewrite E1, E2.
  f_equal. zdiv.
Qed.

Lemma take_four_digits y rest :
  0 <= y <= 9999 -> take_digits 4 0 (four_digits y ++ rest) = Some (y, rest).
Proof.
  intros Hy. unfold four_digits. rewrite append_assoc.
  rewrite take_two_digits by zdiv. rewrite take_two_digits by zdiv.
  cbn [take_digits]. do 2 f_equal. zdiv.
Qed.

Lemma take_two_digits_end n rest :
  0 <= n <= 99 -> take_digits 2 0 (two_digits n ++ rest) = Some (n, rest).
Proof.
  intros Hn. rewrite take_two_digits by done. cbn [take_digits].
  by replace (100 * 0 + n) with n by lia.
Qed.

Lemma expect_literal ch (s : string) : expect ch (String ch s) = Some s.
Proof. unfold expect. by rewrite Ascii.eqb_refl. Qed.

Lemma parse_iso_time_text h mi s :
  0 <= h <= 23 -> 0 <= mi <= 59 -> 0 <= s <= 59 ->
  parse_iso_time (time_text h mi s) = Some (MakeTime h mi s 0).
Proof.
  intros Hh Hmi Hs. unfold parse_iso_time, time_text.
  rewrite take_two_digits_end by lia. cbn [mbind option_bind].
  rewrite append_cons, append_nil, expect_literal. cbn [mbind option_bind].
  rewrite take_two_digits_end by lia. cbn [mbind option_bind].
  rewrite append_cons, append_nil, expect_literal. cbn [mbind option_bind].
  replace (two_digits s) with (two_digits s ++ "") by (unfold two_digits; done).
  rewrite take_two_digits_end by lia. cbn [mbind option_bind].
  replace ((h <=? 23) && (mi <=? 59) && (s <=? 59)) with true; [done|].
  symmetry. rewrite !andb_true_iff, !Z.leb_le. lia.
Qed.

Section Parse.

Variable c : Clock.
Variables y m d : Z.
Hypothesis Hy : 0 <= y <= 9999.
Hypothesis Hm : 1 <= m <= 12.
Hypothesis Hd : 1 <= d <= 31.

Lemma Date_parse_head (tail : string) :
  Date_parse c (date_text y m d ++ tail)
  = match tail with
    | EmptyString => TimeClip (MakeDate (MakeDay y (m - 1) d) 0)
    | _ => s6 ← expect "T" tail;
           t ← parse_iso_time s6;
           TimeClip (UTC c (MakeDate (MakeDay y (m - 1) d) t))
    end.
Proof.
  unfold Date_parse, date_text. rewrite !append_assoc.
  rewrite take_four_digits by done. cbn [mbind option_bind].
  rewrite append_cons, append_nil, expect_literal. cbn [mbind option_bind].
  rewrite take_two_digits_end by lia. cbn [mbind option_bind].
  rewrite append_cons, append_nil, expect_literal. cbn [mbind option_bind].
  rewrite take_two_digits_end by lia. cbn [mbind option_bind].
  replace ((1 <=? m) && (m <=? 12) && (1 <=? d) && (d <=? 31)) with true; [done|].
  symmetry. rewrite !andb_true_iff, !Z.leb_le. lia.
Qed.

Lemma Date_parse_date_text :
  Date_parse c (date_text y m d)
  = TimeClip (MakeDate (MakeDay y (m - 1) d) 0).
Proof.
  replace (date_text y m d) with (date_text y m d ++ "").
  - by rewrite Date_parse_head.
  - generalize (date_text y m d). intros s.
    induction s as [|ch s IH]; [done|]. by rewrite append_cons, IH.
Qed.

Lemma Date_parse_date_time_text h mi s :
  0 <= h <= 23 -> 0 <= mi <= 59 -> 0 <= s <= 59 ->
  Date_parse c (date_text y m d ++ "T" ++ time_text h mi s)
  = TimeClip (UTC c (MakeDate (MakeDay y (m - 1) d) (MakeTime h mi s 0))).
Proof.
  intros Hh Hmi Hs. rewrite Date_parse_head.
  rewrite append_cons, append_nil, expect_literal. cbn [mbind option_bind].
  by rewrite parse_iso_time_text.
Qed.

End Parse.

Lemma is_Fin_eq z n : is_Fin z n = true -> n = Fin z.
Proof. destruct n; try done. cbn. by intros ->%Z.eqb_eq. Qed.

Lemma Number_two_digits n : 0 <= n <= 99 -> Number (two_digits n) = Fin n.
Proof.
  intros Hn. apply is_Fin_eq.
  apply (forall_below (λ z, is_Fin z (Number (two_digits z))) 100); [|lia].
  by vm_compute.
Qed.

Lemma Number_four_digits y : 0 <= y <= 9999 -> Number (four_digits y) = Fin y.
Proof.
  intros Hy. apply is_Fin_eq.
  apply (forall_below (λ z, is_Fin z (Number (four_digits z))) 10000); [|lia].
  by vm_compute.
Qed.

Lemma parseInt10_two_digits n :
  0 <= n <= 99 -> TimeFormat.parseInt10 (two_digits n) = Fin n.
Proof.
  intros Hn. apply is_Fin_eq.
  apply (forall_below (λ z, is_Fin z (TimeFormat.parseInt10 (two_digits z))) 100);
    [|lia].
  by vm_compute.
Qed.

Lemma split_head sep (s : string) :
  split sep (String sep s) = "" :: split sep s.
Proof. cbn [split]. by rewrite Ascii.eqb_refl. Qed.

Lemma split_two_digits_dash n (s : string) :
  0 <= n <= 99 ->
  split "-" (two_digits n ++ s)
  = match split "-" s with
    | [] => [two_digits n]
    | w :: ws => (two_digits n ++ w) :: ws
    end.
Proof.
  intros Hn. destruct (two_digits_range n Hn) as [H1 H2].
  destruct (digit_char_facts _ H1) as (_ & E1 & _).
  destruct (digit_char_facts _ H2) as (_ & E2 & _).
  chars. cbn [split]. rewrite E1, E2. by destruct (split "-" s).
Qed.

Lemma split_two_digits_colon n (s : string) :
  0 <= n <= 99 ->
  split ":" (two_digits n ++ s)
  = match split ":" s with
    | [] => [two_digits n]
    | w :: ws => (two_digits n ++ w) :: ws
    end.
Proof.
  intros Hn. destruct (two_digits_range n Hn) as [H1 H2].
  destruct (digit_char_facts _ H1) as (_ & _ & E1 & _).
  destruct (digit_char_facts _ H2) as (_ & _ & E2 & _).
  chars. cbn [split]. rewrite E1, E2. by destruct (split ":" s).
Qed.

Lemma append_empty (s : string) : s ++ "" = s.
Proof. induction s as [|ch s IH]; [done|]. by rewrite append_cons, IH. Qed.

Lemma split_date_text y m d :
  0 <= y <= 9999 -> 0 <= m <= 99 -> 0 <= d <= 99 ->
  split "-" (date_text y m d) = [four_digits y; two_digits m; two_digits d].
Proof.
  intros Hy Hm Hd. unfold date_text, four_digits. rewrite append_assoc.
  rewrite split_two_digits_dash by zdiv.
  rewrite split_two_digits_dash by zdiv.
  rewrite append_cons, append_nil, split_head.
  rewrite split_two_digits_dash by lia.
  rewrite append_cons, append_nil, split_head.
  rewrite <- (append_empty (two_digits d)) at 1.
  rewrite split_two_digits_dash by lia.
  cbn [split]. by rewrite ?append_nil, ?append_empty.
Qed.

Lemma split_time_text h mi s :
  0 <= h <= 99 -> 0 <= mi <= 99 -> 0 <= s <= 99 ->
  split ":" (time_text h mi s) = [two_digits h; two_digits mi; two_digits s].
Proof.
  intros Hh Hmi Hs. unfold time_text.
  rewrite split_two_digits_colon by lia.
  rewrite append_cons, append_nil, split_head.
  rewrite split_two_digits_colon by lia.
  rewrite append_cons, append_nil, split_head.
  rewrite <- (append_empty (two_digits s)) at 1.
  rewrite split_two_digits_colon by lia.
  cbn [split]. by rewrite ?append_nil, ?append_empty.
Qed.

Lemma split_hour_minute h mi :
  0 <= h <= 99 -> 0 <= mi <= 99 ->
  split ":" (two_digits h ++ ":" ++ two_digits mi)
  = [two_digits h; two_digits mi].
Proof.
  intros Hh Hmi.
  rewrite split_two_digits_colon by lia.
  rewrite append_cons, append_nil, split_head.
  rewrite <- (append_empty (two_digits mi)) at 1.
  rewrite split_two_digits_colon by lia.
  cbn [split]. by rewrite ?append_nil, ?append_empty.
Qed.

Lemma no_T_or_space_two_digits n (s : string) :
  0 <= n <= 99 ->
  TimeFormat.includes_char "T" (two_digits n ++ s)
  = TimeFormat.includes_char "T" s
  /\ TimeFormat.includes_char " " (two_digits n ++ s)
     = TimeFormat.includes_char " " s.
Proof.
  intros Hn. destruct (two_digits_range n Hn) as [H1 H2].
  destruct (digit_char_facts _ H1) as (_ & _ & _ & E1 & F1).
  destruct (digit_char_facts _ H2) as (_ & _ & _ & E2 & F2).
  chars. cbn [TimeFormat.includes_char]. by rewrite E1, E2, F1, F2.
Qed.

End BookedTexts.

(** Bring the booked texts to their characters. *)
Ltac booked_chars :=
  unfold Booking.time_text, Booking.date_text, Booking.four_digits,
    Booking.two_digits;
  rewrite ?append_cons, ?append_nil.

Lemma valid_day_range (y m d : Z) :
  valid_date y m d -> 1 <= m <= 12 /\ 1 <= d <= 31.
Proof.
  intros [Hm Hd]. split; [done|]. unfold days_in_month in Hd.
  assert (m = 1 \/ m = 2 \/ m = 3 \/ m = 4 \/ m = 5 \/ m = 6 \/ m = 7
          \/ m = 8 \/ m = 9 \/ m = 10 \/ m = 11 \/ m = 12) as Hc by lia.
  revert Hd.
  destruct Hc as [->|[->|[->|[->|[->|[->|[->|[->|[->|[->|[->| ->]]]]]]]]]]];
    destruct (leap y); months; lia.
Qed.

Section BookedRendering.

Import Booking.

Variable c : Clock.
Variables y m d h mi s : Z.
Hypothesis Hy : 0 <= y <= 9999.
Hypothesis Hv : valid_date y m d.
Hypothesis Hh : 0 <= h <= 23.
Hypothesis Hmi : 0 <= mi <= 59.
Hypothesis Hs : 0 <= s <= 59.

Lemma booked_day_bounds : -720000 <= MakeDay y (m - 1) d <= 2933000.
Proof.
  destruct (MakeDay_valid _ _ _ Hv) as (-> & _ & Hk).
  rewrite DaysInYear_cases in Hk.
  pose proof (DayFromYear_mono 0 y). pose proof (DayFromYear_mono y 9999).
  change (DayFromYear 0) with (-719528) in *.
  change (DayFromYear 9999) with 2932532 in *.
  destruct (leap y); lia.
Qed.

Lemma date_text_nonempty : String.eqb (date_text y m d) "" = false.
Proof. by booked_chars. Qed.

Lemma given_time_text :
  given (Some (time_text h mi s)) = Some (time_text h mi s).
Proof. by booked_chars. Qed.

Lemma rendered_fields :
  - msPerDay <= tza c <= msPerDay ->
  toLocaleDateString_hm c
    (TimeClip (UTC c (MakeDate (MakeDay y (m - 1) d) (MakeTime h mi s 0))))
  = LongDateTime y m d h mi.
Proof.
  intros Hz. pose proof booked_day_bounds as Hb.
  assert (0 <= MakeTime h mi s 0 < msPerDay) as Ht
    by (unfold MakeTime, msPerDay; lia).
  unfold TimeClip. case_match; ltb_prop.
  2:{ unfold UTC, MakeDate, msPerDay in *. lia. }
  unfold toLocaleDateString_hm. rewrite LocalTime_UTC.
  destruct (Day_MakeDate (MakeDay y (m - 1) d) _ Ht) as [-> ->].
  destruct (fields_of_MakeDay _ _ _ Hv) as (-> & -> & ->).
  f_equal; [lia| |]; unfold MakeTime; zdiv.
Qed.

End BookedRendering.

(** X17.  Round trip of the booked fields.  The date and time texts
    the booking form sends ([YYYY-MM-DD], [HH:mm:ss]) are split and
    converted back by the pages to the year, month and day and to the
    hour, minute and second they were written from. *)
Theorem booked_texts_read_back (y m d h mi s : Z) :
  0 <= y <= 9999 -> 0 <= m <= 99 -> 0 <= d <= 99 ->
  0 <= h <= 99 -> 0 <= mi <= 99 -> 0 <= s <= 99 ->
  map Number (split "-" (Booking.date_text y m d)) = [Fin y; Fin m; Fin d]
  /\ map Number (split ":" (Booking.time_text h mi s))
     = [Fin h; Fin mi; Fin s].
Proof.
  intros Hy Hm Hd Hh Hmi Hs.
  rewrite split_date_text, split_time_text by done. cbn [map].
  by rewrite Number_four_digits, !Number_two_digits.
Qed.

Lemma booked_texts_read_back_witness :
  Booking.date_text 2025 3 10 = "2025-03-10"
  /\ Booking.time_text 14 30 0 = "14:30:00"
  /\ map Number (split "-" (Booking.date_text 2025 3 10))
     = [Fin 2025; Fin 3; Fin 10].
Proof.
  split; [reflexivity|]. split; [reflexivity|].
  exact (proj1 (booked_texts_read_back 2025 3 10 14 30 0
                  ltac:(lia) ltac:(lia) ltac:(lia) ltac:(lia) ltac:(lia)
                  ltac:(lia))).
Defined.

Lemma booked_date_reads (y m d : Z) :
  100 <= y <= 9999 -> valid_date y m d ->
  reads_date (Booking.date_text y m d) y m d.
Proof.
  intros Hy Hv. destruct (valid_day_range y m d Hv) as [Hm Hd].
  split; [|done].
  apply (booked_texts_read_back y m d 0 0 0); lia.
Qed.

Lemma booked_time_reads (h mi : Z) :
  0 <= h <= 23 -> 0 <= mi <= 59 ->
  reads_time (Some (Booking.time_text h mi 0)) (Some (h, mi)).
Proof.
  intros Hh Hmi. exists h, mi, [Fin 0]. split; [|done].
  apply (booked_texts_read_back 0 0 0 h mi 0); lia.
Qed.

(** X18.  On what the booking form sends (seconds always 00), for a
    clock from 1970 on and a calendar date with a year from 0100 to
    9999: [isToday] holds exactly when the booked date is today's
    local date, and [isPastAppointment] holds exactly when the booked
    date is before today's, or is today's with the booked hour and
    minute strictly before the local time of day. *)
Theorem booked_appointment_eligibility (c : Clock) (y m d h mi : Z) :
  clock_ok c ->
  100 <= y <= 9999 -> valid_date y m d ->
  0 <= h <= 23 -> 0 <= mi <= 59 ->
  (Appointments.isToday c (Booking.date_text y m d) = true
   <-> (y, m, d) = local_date c)
  /\ (Appointments.isPastAppointment c (Booking.date_text y m d)
        (Some (Booking.time_text h mi 0)) = true
      <-> civil_lt (y, m, d) (local_date c)
          \/ ((y, m, d) = local_date c
              /\ MakeTime h mi 0 0 < local_time_of_day c)).
Proof.
  intros Hc Hy Hv Hh Hmi.
  pose proof (booked_date_reads y m d Hy Hv) as Hd.
  pose proof (booked_time_reads h mi Hh Hmi) as Ht.
  split; [by apply isToday_iff|].
  rewrite (isPast_iff c Hc _ _ _ _ _ _ Hd Ht). split.
  - intros [Hlt | (He & h' & mi' & [= <- <-] & Hlt)]; [by left|by right].
  - intros [Hlt | [He Hlt]]; [by left|]. right. split; [done|]. by exists h, mi.
Qed.

Lemma booked_appointment_eligibility_witness :
  clock_ok clk
  /\ valid_date 2025 3 10
  /\ Appointments.isToday clk (Booking.date_text 2025 3 10) = true
  /\ Appointments.isPastAppointment clk (Booking.date_text 2025 3 10)
       (Some (Booking.time_text 9 0 0)) = true.
Proof.
  assert (valid_date 2025 3 10) as Hv by (vm_compute; intuition discriminate).
  destruct (booked_appointment_eligibility clk 2025 3 10 9 0 clk_ok
              ltac:(lia) Hv ltac:(lia) ltac:(lia)) as [Htoday Hpast].
  split; [exact clk_ok|]. split; [exact Hv|]. split.
  - apply Htoday. reflexivity.
  - apply Hpast. right. split; [reflexivity|]. vm_compute. reflexivity.
Defined.

(** X19.  Round trip of a booking through [formatDateTime].  In every
    zone at most a day from UTC, and whatever the clock reads,
    [formatDateTime] of the pages and of the queue view renders the
    booked date text and time text with exactly the booked year,
    month, day, hour and minute. *)
Theorem formatDateTime_renders_booking (c : Clock) (y m d h mi s : Z) :
  - msPerDay <= tza c <= msPerDay ->
  0 <= y <= 9999 -> valid_date y m d ->
  0 <= h <= 23 -> 0 <= mi <= 59 -> 0 <= s <= 59 ->
  Appointments.formatDateTime c (Booking.date_text y m d)
    (Some (Booking.time_text h mi s)) = LongDateTime y m d h mi
  /\ MyQueue.formatDateTime c (Booking.date_text y m d)
       (Some (Booking.time_text h mi s)) = LongDateTime y m d h mi.
Proof.
  intros Hz Hy Hv Hh Hmi Hs.
  destruct (valid_day_range y m d Hv) as [Hm Hd].
  pose proof (rendered_fields c y m d h mi s Hy Hv Hh Hmi Hs Hz) as Hr.
  pose proof (Date_parse_date_time_text c y m d Hy Hm Hd h mi s Hh Hmi Hs) as Hp.
  assert (invalid (TimeClip (UTC c (MakeDate (MakeDay y (m - 1) d)
                                      (MakeTime h mi s 0)))) = false) as Hval.
  { destruct (TimeClip _); [done|]. discriminate Hr. }
  unfold Appointments.formatDateTime, MyQueue.formatDateTime.
  rewrite date_text_nonempty, given_time_text, Hp, Hval. done.
Qed.

Lemma formatDateTime_renders_booking_witness :
  - msPerDay <= tza clk <= msPerDay
  /\ valid_date 2024 2 29
  /\ Appointments.formatDateTime clk (Booking.date_text 2024 2 29)
       (Some (Booking.time_text 8 5 0)) = LongDateTime 2024 2 29 8 5.
Proof.
  assert (- msPerDay <= tza clk <= msPerDay) as Hz
    by (unfold msPerDay, clk; cbn; lia).
  assert (valid_date 2024 2 29) as Hv by (vm_compute; intuition discriminate).
  split; [exact Hz|]. split; [exact Hv|].
  exact (proj1 (formatDateTime_renders_booking clk 2024 2 29 8 5 0 Hz
                  ltac:(lia) Hv ltac:(lia) ltac:(lia) ltac:(lia))).
Defined.

Section FormatDate.

Variable c : Clock.
Variables y m d : Z.
Hypothesis Hy : 0 <= y <= 9999.
Hypothesis Hv : valid_date y m d.

(** A date-only text is read as its UTC midnight and rendered as the
    viewer's local day of that instant. *)
Lemma formatDate_date_text :
  Appointments.formatDate c (Booking.date_text y m d)
  = toLocaleDateString c (Some (MakeDay y (m - 1) d * msPerDay)).
Proof.
  destruct (valid_day_range y m d Hv) as [Hm Hd].
  pose proof (booked_day_bounds y m d Hy Hv) as Hb.
  unfold Appointments.formatDate.
  rewrite date_text_nonempty, (Date_parse_date_text c y m d Hy Hm Hd).
  replace (TimeClip (MakeDate (MakeDay y (m - 1) d) 0))
    with (Some (MakeDay y (m - 1) d * msPerDay)); [done|].
  unfold TimeClip, MakeDate. rewrite Z.add_0_r. case_match; ltb_prop; [done|].
  unfold msPerDay in *. lia.
Qed.

Lemma day_before_differs : day_before y m d <> (y, m, d).
Proof.
  unfold day_before. remember (MakeDay y (m - 1) d) as n eqn:En.
  pose proof (MakeDay_fields (n - 1)) as A.
  intros E. injection E as E1 E2 E3.
  replace (MonthFromDay (n - 1)) with (m - 1) in A by lia.
  rewrite E1, E3, <- En in A. lia.
Qed.

End FormatDate.

(** X20.  [formatDate] of a booked date text, for every calendar date
    of the years 0000 to 9999: in a zone at or east of UTC the booked
    date is rendered; in every zone west of UTC the calendar day
    before it is rendered, which is never the booked date. *)
Theorem formatDate_of_booked_date (c : Clock) (y m d : Z) :
  0 <= y <= 9999 -> valid_date y m d ->
  (0 <= tza c < msPerDay ->
   Appointments.formatDate c (Booking.date_text y m d) = LongDate y m d)
  /\ (- msPerDay <= tza c < 0 ->
      Appointments.formatDate c (Booking.date_text y m d)
      = (let '(y', m', d') := day_before y m d in LongDate y' m' d')
      /\ day_before y m d <> (y, m, d)).
Proof.
  intros Hy Hv. rewrite (formatDate_date_text c y m d Hy Hv).
  unfold toLocaleDateString. split.
  - intros Hz.
    replace (Day (LocalTime c (MakeDay y (m - 1) d * msPerDay)))
      with (MakeDay y (m - 1) d)
      by (unfold Day, LocalTime, msPerDay in *; zdiv).
    by destruct (fields_of_MakeDay _ _ _ Hv) as (-> & -> & ->); f_equal; lia.
  - intros Hz. split; [|by apply day_before_differs].
    replace (Day (LocalTime c (MakeDay y (m - 1) d * msPerDay)))
      with (MakeDay y (m - 1) d - 1)
      by (unfold Day, LocalTime, msPerDay in *; zdiv).
    reflexivity.
Qed.

Lemma formatDate_of_booked_date_witness :
  valid_date 2024 3 1
  /\ - msPerDay <= tza clk < 0
  /\ Appointments.formatDate clk (Booking.date_text 2024 3 1)
     = LongDate 2024 2 29.
Proof.
  assert (valid_date 2024 3 1) as Hv by (vm_compute; intuition discriminate).
  assert (- msPerDay <= tza clk < 0) as Hz by (unfold msPerDay, clk; cbn; lia).
  split; [exact Hv|]. split; [exact Hz|].
  exact (proj1 (proj2 (formatDate_of_booked_date clk 2024 3 1 ltac:(lia) Hv) Hz)).
Defined.

Section FormatTime.

Import Booking TimeFormat.

Variable c : Clock.

Lemma includes_colon_skip ch (s : string) :
  ch <> ":"%char ->
  includes_char ch (":" ++ s) = includes_char ch s.
Proof.
  intros Hne. rewrite append_cons, append_nil. cbn [includes_char].
  by rewrite (proj2 (Ascii.eqb_neq _ _)) by congruence.
Qed.

Lemma time_text_plain h mi s :
  0 <= h <= 99 -> 0 <= mi <= 99 -> 0 <= s <= 99 ->
  String.eqb (time_text h mi s) "" = false
  /\ includes_char "T" (time_text h mi s) || includes_char " " (time_text h mi s)
     = false.
Proof.
  intros Hh Hmi Hs. split; [by booked_chars|]. unfold time_text.
  destruct (no_T_or_space_two_digits h (":" ++ two_digits mi ++ ":" ++ two_digits s) Hh)
    as [-> ->].
  rewrite !includes_colon_skip by done.
  destruct (no_T_or_space_two_digits mi (":" ++ two_digits s) Hmi) as [-> ->].
  rewrite !includes_colon_skip by done.
  rewrite <- (append_empty (two_digits s)).
  by destruct (no_T_or_space_two_digits s "" Hs) as [-> ->].
Qed.

Lemma hour_minute_plain h mi :
  0 <= h <= 99 -> 0 <= mi <= 99 ->
  String.eqb (two_digits h ++ ":" ++ two_digits mi) "" = false
  /\ includes_char "T" (two_digits h ++ ":" ++ two_digits mi)
     || includes_char " " (two_digits h ++ ":" ++ two_digits mi) = false.
Proof.
  intros Hh Hmi. split; [by booked_chars|].
  destruct (no_T_or_space_two_digits h (":" ++ two_digits mi) Hh) as [-> ->].
  rewrite !includes_colon_skip by done.
  rewrite <- (append_empty (two_digits mi)).
  by destruct (no_T_or_space_two_digits mi "" Hmi) as [-> ->].
Qed.

(** Setting hour and minute on the current date and printing the time
    gives them back. *)
Lemma setHours_rendered h mi :
  clock_ok c -> now c + msPerDay <= 8640000000000000 ->
  0 <= h <= 23 -> 0 <= mi <= 59 ->
  toLocaleTimeString c (setHours c (Date_now c) (Fin h) (Fin mi))
  = HourMinute h mi.
Proof.
  intros [Hn Hz] Hlate Hh Hmi.
  pose proof (MakeTime_range h mi Hh Hmi) as Ht.
  unfold setHours, Date_now. cbn [integer_part].
  unfold TimeClip. case_match; ltb_prop.
  2:{ unfold UTC, MakeDate, Day, LocalTime, msPerDay in *. zdiv. }
  unfold toLocaleTimeString. rewrite LocalTime_UTC.
  destruct (Day_MakeDate (Day (LocalTime c (now c))) _ Ht) as [_ ->].
  f_equal; unfold MakeTime; zdiv.
Qed.

(** A text without the separator is one part. *)
Lemma split_without sep (s : string) :
  includes_char sep s = false -> split sep s = [s].
Proof.
  induction s as [|ch s IH]; [done|]. cbn [includes_char split].
  intros [E1 E2]%orb_false_iff. by rewrite E1, (IH E2).
Qed.

End FormatTime.

(** X21.  [formatTime] renders a booked time by its hour and minute
    alone: for a clock from 1970 on, more than a day before the end of
    the time range, in a zone at most a day from UTC, the text
    [HH:mm:ss] and the text [HH:mm] are both rendered as the booked
    hour and minute, whatever the date, the zone and the seconds. *)
Theorem formatTime_renders_booking (c : Clock) (h mi s : Z) :
  clock_ok c -> now c + msPerDay <= 8640000000000000 ->
  0 <= h <= 23 -> 0 <= mi <= 59 -> 0 <= s <= 99 ->
  TimeFormat.formatTime c (Booking.time_text h mi s)
  = TimeFormat.HourMinute h mi
  /\ TimeFormat.formatTime c
       (Booking.two_digits h ++ ":" ++ Booking.two_digits mi)
     = TimeFormat.HourMinute h mi.
Proof.
  intros Hc Hlate Hh Hmi Hs.
  assert (TimeFormat.between 0 23 (Fin h) && TimeFormat.between 0 59 (Fin mi)
          = true) as Hb.
  { cbn [TimeFormat.between]. apply andb_true_iff. split; apply andb_true_iff; lia. }
  pose proof (setHours_rendered c h mi Hc Hlate Hh Hmi) as Hr.
  unfold TimeFormat.formatTime. split.
  - destruct (time_text_plain h mi s) as [-> ->]; [lia..|].
    rewrite split_time_text by lia. cbn [List.length Nat.leb nth].
    by rewrite !parseInt10_two_digits, Hb by lia.
  - destruct (hour_minute_plain h mi) as [-> ->]; [lia..|].
    rewrite split_hour_minute by lia. cbn [List.length Nat.leb nth].
    by rewrite !parseInt10_two_digits, Hb by lia.
Qed.

Lemma formatTime_renders_booking_witness :
  clock_ok clk
  /\ TimeFormat.formatTime clk (Booking.time_text 14 30 0)
     = TimeFormat.HourMinute 14 30.
Proof.
  split; [exact clk_ok|].
  exact (proj1 (formatTime_renders_booking clk 14 30 0 clk_ok
                  ltac:(unfold msPerDay, clk; cbn; lia)
                  ltac:(lia) ltac:(lia) ltac:(lia))).
Defined.

(** X22.  What [formatTime] refuses.  A non-empty text with no colon,
    no [T] and no space is rendered as [Invalid Time], whatever else
    it holds; and so is a text [HH:mm:ss] of two-digit fields whose
    hour is above 23 or whose minute is above 59.  The clock plays no
    part. *)
Theorem formatTime_refuses (c : Clock) :
  (forall ts : string,
     ts <> "" ->
     TimeFormat.includes_char ":" ts = false ->
     TimeFormat.includes_char "T" ts = false ->
     TimeFormat.includes_char " " ts = false ->
     TimeFormat.formatTime c ts = TimeFormat.TimeLiteral "Invalid Time")
  /\ (forall h mi s : Z,
        0 <= h <= 99 -> 0 <= mi <= 99 -> 0 <= s <= 99 ->
        24 <= h \/ 60 <= mi ->
        TimeFormat.formatTime c (Booking.time_text h mi s)
        = TimeFormat.TimeLiteral "Invalid Time").
Proof.
  split.
  - intros ts Hne Hcolon HT Hsp. unfold TimeFormat.formatTime.
    rewrite (proj2 (String.eqb_neq _ _) Hne), HT, Hsp.
    by rewrite (split_without _ _ Hcolon).
  - intros h mi s Hh Hmi Hs Hout. unfold TimeFormat.formatTime.
    destruct (time_text_plain h mi s) as [-> ->]; [lia..|].
    rewrite split_time_text by lia. cbn [List.length Nat.leb nth].
    rewrite !parseInt10_two_digits by lia. cbn [TimeFormat.between].
    replace ((0 <=? h) && (h <=? 23) && ((0 <=? mi) && (mi <=? 59))) with false;
      [done|].
    symmetry. rewrite !andb_false_iff. lia.
Qed.

Lemma formatTime_refuses_witness :
  TimeFormat.formatTime clk "noon" = TimeFormat.TimeLiteral "Invalid Time"
  /\ TimeFormat.formatTime clk "24:00:00" = TimeFormat.TimeLiteral "Invalid Time".
Proof.
  split.
  - apply (proj1 (formatTime_refuses clk) "noon"); [discriminate|reflexivity..].
  - apply (proj2 (formatTime_refuses clk) 24 0 0); lia.
Defined.
